(** * dinput8 wrapper: a forwarding proxy that blanks the Rx/Ry axes

    Shallow embedding of [dllmain.cpp] and the properties its
    description states about it.  The source file holds two revisions
    of the wrapper one after the other; the second, which wraps the
    Unicode interfaces as well as the ANSI ones, is the one embedded
    here.  Its ANSI classes are the first revision's, less the members
    and the destructor the first revision never used.  What the first
    revision does differently (the destructor and the export) is
    embedded in [Revision1] and compared with the second.

    The wrapper is a thin layer between a game and the genuine
    [dinput8.dll].  Everything the genuine library and the operating
    system do is opaque to the wrapper, so it is kept abstract here: a
    type class [Genuine] gives the genuine side as state-passing
    functions over a state [E] the wrapper never inspects.  The
    wrapper's own state is explicit: the objects it allocated with
    [new], the cached function pointer [g_pfnDirectInput8Create], the
    caller's byte memory and the log file. *)

From Stdlib Require Import ZArith List String Ascii Bool Lia.
From stdpp Require Import base option gmap strings.
Import ListNotations.

Local Open Scope Z_scope.

(** ** Platform types

    [dinput.h] and [windows.h] are not part of the repository; the few
    declarations the wrapper relies on are written out below with the
    values of the platform SDK. *)

Definition HRESULT := Z.   (* LONG: a signed 32-bit result code *)
Definition ULONG := Z.
Definition DWORD := Z.
Definition LPVOID := Z.    (* address of caller memory *)
Definition HINSTANCE := Z.
Definition HMODULE := positive.
Definition FARPROC := positive.

Definition S_OK : HRESULT := 0.
Definition S_FALSE : HRESULT := 1.
(* 0x80004005 read as a signed 32-bit value *)
Definition E_FAIL : HRESULT := 0x80004005 - 2 ^ 32.
(* HRESULT_FROM_WIN32(ERROR_READ_FAULT): the device was lost *)
Definition DIERR_INPUTLOST : HRESULT := 0x8007001E - 2 ^ 32.
(* sizeof(DIJOYSTATE2), the extended joystick state *)
Definition sizeof_DIJOYSTATE2 : Z := 272.

(* #define SUCCEEDED(hr) (((HRESULT)(hr)) >= 0) *)
Definition SUCCEEDED (hr : HRESULT) : bool := 0 <=? hr.

(* #define LOBYTE(w) ((BYTE)(((DWORD_PTR)(w)) & 0xff))
   #define HIBYTE(w) ((BYTE)((((DWORD_PTR)(w)) >> 8) & 0xff)) *)
Definition LOBYTE (w : Z) : Z := Z.land w 0xff.
Definition HIBYTE (w : Z) : Z := Z.land (Z.shiftr w 8) 0xff.

(* #define GET_DIDEVICE_TYPE(dwDevType)    LOBYTE(dwDevType)
   #define GET_DIDEVICE_SUBTYPE(dwDevType) HIBYTE(dwDevType) *)
Definition GET_DIDEVICE_TYPE (dwDevType : DWORD) : Z := LOBYTE dwDevType.
Definition GET_DIDEVICE_SUBTYPE (dwDevType : DWORD) : Z := HIBYTE dwDevType.

Definition DI8DEVTYPE_GAMEPAD : Z := 0x15.
Definition DI8DEVTYPE_1STPERSON : Z := 0x18.
Definition DI8DEVTYPE1STPERSON_SIXDOF : Z := 3.

Definition MAX_PATH : Z := 260.
(* sizeof(DIDEVICEINSTANCEA) and sizeof(DIDEVICEINSTANCEW): dwSize, two
   GUIDs, dwDevType, two TCHAR[MAX_PATH] names, a GUID and two WORDs *)
Definition sizeof_DIDEVICEINSTANCEA : Z := 4 + 16 + 16 + 4 + MAX_PATH + MAX_PATH + 16 + 2 + 2.
Definition sizeof_DIDEVICEINSTANCEW : Z := 4 + 16 + 16 + 4 + 2 * MAX_PATH + 2 * MAX_PATH + 16 + 2 + 2.

(** *** Interface identifiers *)

Record GUID := DEFINE_GUID {
  Data1 : Z; Data2 : Z; Data3 : Z; Data4 : list Z
}.

#[global] Instance GUID_eq_dec : EqDecision GUID.
Proof. solve_decision. Defined.

(* operator== on REFIID, that is IsEqualGUID *)
Definition IsEqualGUID (a b : GUID) : bool := bool_decide (a = b).

Definition IID_IUnknown : GUID :=
  DEFINE_GUID 0x00000000 0x0000 0x0000 [0xC0; 0x00; 0x00; 0x00; 0x00; 0x00; 0x00; 0x46].
Definition IID_IDirectInput8A : GUID :=
  DEFINE_GUID 0xBF798030 0x483A 0x4DA2 [0xAA; 0x99; 0x5D; 0x64; 0xED; 0x36; 0x97; 0x00].
Definition IID_IDirectInput8W : GUID :=
  DEFINE_GUID 0xBF798031 0x483A 0x4DA2 [0xAA; 0x99; 0x5D; 0x64; 0xED; 0x36; 0x97; 0x00].
Definition IID_IDirectInputDevice8A : GUID :=
  DEFINE_GUID 0x54D41080 0xDC15 0x4833 [0xA4; 0x1B; 0x74; 0x8F; 0x73; 0xA3; 0x81; 0x79].
Definition IID_IDirectInputDevice8W : GUID :=
  DEFINE_GUID 0x54D41081 0xDC15 0x4833 [0xA4; 0x1B; 0x74; 0x8F; 0x73; 0xA3; 0x81; 0x79].
(* an identifier the wrapper does not know: the DirectInput 7 interface *)
Definition IID_IDirectInput7A : GUID :=
  DEFINE_GUID 0x9A4CB684 0x236D 0x11D3 [0x8E; 0x9D; 0x00; 0xC0; 0x4F; 0x68; 0x44; 0xAE].

(* an identifier the device wrappers do not know: the DirectInput 7 device *)
Definition IID_IDirectInputDevice7A : GUID :=
  DEFINE_GUID 0x57D7C6BC 0x2356 0x11D3 [0x8E; 0x9D; 0x00; 0xC0; 0x4F; 0x68; 0x44; 0xAE].

(* the predefined product GUID a game passes to CreateDevice for a joystick *)
Definition GUID_Joystick : GUID :=
  DEFINE_GUID 0x6F1D2B70 0xD5A0 0x11CF [0xBF; 0xC7; 0x44; 0x45; 0x53; 0x54; 0x00; 0x00].

(** *** Interface pointers

    A pointer a caller holds is null, a genuine object of the real
    library, or a wrapper object allocated by this library with [new]. *)

Inductive Ptr :=
| nullptr
| Real (h : positive)
| Proxy (a : positive).

#[global] Instance Ptr_eq_dec : EqDecision Ptr.
Proof. solve_decision. Defined.

(** ** Caller memory and the DIJOYSTATE layout *)

(* byte-addressed memory; a cell holds a value in [0, 256) *)
Definition Mem := Z -> Z.

Definition store_BYTE (m : Mem) (a v : Z) : Mem :=
  fun a' => if a' =? a then Z.land v 0xff else m a'.

(* little-endian 32-bit store, as on x86 and x64 *)
Definition store_LONG (m : Mem) (a v : Z) : Mem :=
  store_BYTE (store_BYTE (store_BYTE (store_BYTE m
    a v) (a + 1) (Z.shiftr v 8)) (a + 2) (Z.shiftr v 16)) (a + 3) (Z.shiftr v 24).

Definition load_BYTE (m : Mem) (a : Z) : Z := m a.

Definition load_DWORD (m : Mem) (a : Z) : Z :=
  Z.lor (m a) (Z.lor (Z.shiftl (m (a + 1)) 8)
    (Z.lor (Z.shiftl (m (a + 2)) 16) (Z.shiftl (m (a + 3)) 24))).

(* a DWORD read as LONG (two's complement) *)
Definition load_LONG (m : Mem) (a : Z) : Z :=
  let u := load_DWORD m a in if u <? 2 ^ 31 then u else u - 2 ^ 32.

(* typedef struct DIJOYSTATE {
     LONG lX; LONG lY; LONG lZ; LONG lRx; LONG lRy; LONG lRz;
     LONG rglSlider[2]; DWORD rgdwPOV[4]; BYTE rgbButtons[32];
   } DIJOYSTATE; *)
Record DIJOYSTATE := {
  lX : Z; lY : Z; lZ : Z; lRx : Z; lRy : Z; lRz : Z;
  rglSlider : list Z; rgdwPOV : list Z; rgbButtons : list Z
}.

Definition sizeof_LONG : Z := 4.
Definition offsetof_lX : Z := 0 * sizeof_LONG.
Definition offsetof_lY : Z := 1 * sizeof_LONG.
Definition offsetof_lZ : Z := 2 * sizeof_LONG.
Definition offsetof_lRx : Z := 3 * sizeof_LONG.
Definition offsetof_lRy : Z := 4 * sizeof_LONG.
Definition offsetof_lRz : Z := 5 * sizeof_LONG.
Definition offsetof_rglSlider : Z := 6 * sizeof_LONG.
Definition offsetof_rgdwPOV : Z := offsetof_rglSlider + 2 * sizeof_LONG.
Definition offsetof_rgbButtons : Z := offsetof_rgdwPOV + 4 * 4.
Definition sizeof_DIJOYSTATE : Z := offsetof_rgbButtons + 32 * 1.

(* the struct a caller reads back from [lpvData] *)
Definition load_DIJOYSTATE (m : Mem) (p : LPVOID) : DIJOYSTATE :=
  {| lX := load_LONG m (p + offsetof_lX);
     lY := load_LONG m (p + offsetof_lY);
     lZ := load_LONG m (p + offsetof_lZ);
     lRx := load_LONG m (p + offsetof_lRx);
     lRy := load_LONG m (p + offsetof_lRy);
     lRz := load_LONG m (p + offsetof_lRz);
     rglSlider := map (fun i => load_LONG m (p + offsetof_rglSlider + 4 * Z.of_nat i)) (seq 0 2);
     rgdwPOV := map (fun i => load_DWORD m (p + offsetof_rgdwPOV + 4 * Z.of_nat i)) (seq 0 4);
     rgbButtons := map (fun i => load_BYTE m (p + offsetof_rgbButtons + Z.of_nat i)) (seq 0 32) |}.

(* the same struct with the two rotation axes blanked *)
Definition without_rotation (s : DIJOYSTATE) : DIJOYSTATE :=
  {| lX := lX s; lY := lY s; lZ := lZ s; lRx := 0; lRy := 0; lRz := lRz s;
     rglSlider := rglSlider s; rgdwPOV := rgdwPOV s; rgbButtons := rgbButtons s |}.

(* caller memory after [state->lRx = 0; state->lRy = 0;] *)
Definition blank_rotation (m : Mem) (state : LPVOID) : Mem :=
  store_LONG (store_LONG m (state + offsetof_lRx) 0) (state + offsetof_lRy) 0.

(** ** The genuine library and the operating system

    What the wrapper calls but does not implement.  [E] is the state of
    everything behind that boundary (the loader, the real DirectInput
    objects and their reference counts, the attached hardware).  An
    output parameter of pointer type is passed as the content of the
    cell before the call and comes back as its content after it. *)

(* the fields of DIDEVICEINSTANCEA / DIDEVICEINSTANCEW the wrapper reads *)
Record DIDEVICEINSTANCE := {
  dwDevType : DWORD;
  tszProductName : string
}.

Class Genuine (E : Type) := {
  (* kernel32 *)
  GetSystemDirectoryA : E -> string;
  LoadLibraryA : string -> E -> option HMODULE * E;
  GetProcAddress : HMODULE -> string -> E -> option FARPROC * E;
  (* a call through a DirectInput8Create_t function pointer:
     (hinst, dwVersion, riid, *ppvOut, punkOuter) *)
  call_DirectInput8Create :
    FARPROC -> HINSTANCE -> DWORD -> GUID -> Ptr -> Ptr -> E -> HRESULT * Ptr * E;
  (* IUnknown of a genuine object *)
  real_QueryInterface : positive -> GUID -> Ptr -> E -> HRESULT * Ptr * E;
  real_AddRef : positive -> E -> ULONG * E;
  real_Release : positive -> E -> ULONG * E;
  (* IDirectInput8A / IDirectInput8W: (rguid, *lplpDirectInputDevice, pUnkOuter) *)
  real_CreateDevice : positive -> GUID -> Ptr -> Ptr -> E -> HRESULT * Ptr * E;
  (* IDirectInputDevice8A / IDirectInputDevice8W; GetDeviceInfo is given
     the dwSize the caller stored in the struct *)
  real_GetDeviceInfo : positive -> DWORD -> E -> HRESULT * DIDEVICEINSTANCE * E;
  real_GetDeviceState : positive -> DWORD -> LPVOID -> E -> Mem -> HRESULT * E * Mem
}.

(** ** The wrapper's own state *)

(* an object allocated with [new]: one constructor per wrapper class,
   carrying the class's only data member *)
Inductive Object :=
| DeviceA (m_pRealDevice : Ptr)   (* class WrapperIDirectInputDevice8A *)
| DInputA (m_pRealDInput : Ptr)   (* class WrapperIDirectInput8A *)
| DeviceW (m_pRealDevice : Ptr)   (* class WrapperIDirectInputDevice8W *)
| DInputW (m_pRealDInput : Ptr).  (* class WrapperIDirectInput8W *)

Record World (E : Type) := mkWorld {
  genuine : E;
  memory : Mem;
  heap : gmap positive Object;
  g_pfnDirectInput8Create : option FARPROC;
  (* whether DINPUT8_LOG_ENABLE reads as 1 or true *)
  log_enabled : bool;
  (* lines appended to dinput8-wrapper.log, without their timestamp *)
  log_file : list string
}.
Arguments mkWorld {E}.
Arguments genuine {E}.
Arguments memory {E}.
Arguments heap {E}.
Arguments g_pfnDirectInput8Create {E}.
Arguments log_enabled {E}.
Arguments log_file {E}.

Section Machine.
Context {E : Type}.

Definition set_genuine (e : E) (w : World E) : World E :=
  mkWorld e (memory w) (heap w) (g_pfnDirectInput8Create w) (log_enabled w) (log_file w).
Definition set_memory (m : Mem) (w : World E) : World E :=
  mkWorld (genuine w) m (heap w) (g_pfnDirectInput8Create w) (log_enabled w) (log_file w).
Definition set_heap (o : gmap positive Object) (w : World E) : World E :=
  mkWorld (genuine w) (memory w) o (g_pfnDirectInput8Create w) (log_enabled w) (log_file w).
Definition set_g_pfnDirectInput8Create (f : option FARPROC) (w : World E) : World E :=
  mkWorld (genuine w) (memory w) (heap w) f (log_enabled w) (log_file w).
Definition set_log_file (l : list string) (w : World E) : World E :=
  mkWorld (genuine w) (memory w) (heap w) (g_pfnDirectInput8Create w) (log_enabled w) l.

(** A computation either runs to completion in a new world or has no
    defined behaviour ([None]): a call through a null pointer or on an
    object that was deleted. *)
Definition M (A : Type) : Type := World E -> option (A * World E).

Definition ret {A} (x : A) : M A := fun w => Some (x, w).
Definition bind {A B} (m : M A) (k : A -> M B) : M B :=
  fun w => match m w with Some (x, w') => k x w' | None => None end.
Definition undefined {A} : M A := fun _ => None.

(* a call into the genuine side that touches only its own state *)
Definition sys {A} (f : E -> A * E) : M A :=
  fun w => let '(x, e) := f (genuine w) in Some (x, set_genuine e w).

(* p->method(...) through an interface pointer the wrapper holds.  The
   pointers a wrapper holds come from the genuine library, which hands
   out its own objects; a call through a null pointer has no defined
   behaviour. *)
Definition through {A} (p : Ptr) (method : positive -> E -> A * E) : M A :=
  match p with
  | Real h => sys (method h)
  | _ => undefined
  end.

(* the same for a method that also fills caller memory *)
Definition through_mem (p : Ptr) (method : positive -> E -> Mem -> HRESULT * E * Mem)
  : M HRESULT :=
  match p with
  | Real h => fun w =>
      let '(hr, e, m) := method h (genuine w) (memory w) in
      Some (hr, set_memory m (set_genuine e w))
  | _ => undefined
  end.

Definition write_LONG (a v : Z) : M unit :=
  fun w => Some (tt, set_memory (store_LONG (memory w) a v) w).

(* new T(...): a free address of the wrapper's heap now holds [o]
   (allocation is taken to succeed) *)
Definition operator_new (o : Object) : M positive :=
  fun w => let a := fresh (dom (heap w)) in Some (a, set_heap (<[a := o]> (heap w)) w).

(* delete this *)
Definition operator_delete (this : positive) : M unit :=
  fun w => Some (tt, set_heap (delete this (heap w)) w).

(* void Log(const std::string&) and its std::wstring overload *)
Definition Log (message : string) : M unit :=
  fun w => Some (tt, set_log_file (if log_enabled w then log_file w ++ [message]
                                   else log_file w) w).
End Machine.
Arguments M : clear implicits.

Notation "'let*' x ':=' m 'in' k" := (bind m (fun x => k))
  (at level 10, x name, m at level 200, k at level 200, only parsing).
Notation "'let*' ' pat ':=' m 'in' k" := (bind m (fun x => match x with pat => k end))
  (at level 10, pat pattern, m at level 200, k at level 200, only parsing).

(* std::hex << std::setw(8) << std::setfill('0') << dwDevType *)
Definition hex_digit (d : Z) : ascii :=
  nth (Z.to_nat d) (list_ascii_of_string "0123456789abcdef") "0"%char.
Definition hex8 (v : DWORD) : string :=
  string_of_list_ascii
    (map (fun i => hex_digit (Z.land (Z.shiftr v (4 * (7 - Z.of_nat i))) 15)) (seq 0 8)).

(** ** class WrapperIDirectInputDevice8A *)

Module WrapperIDirectInputDevice8A.
Section methods.
Context `{Genuine E}.

(* this->m_pRealDevice; [this] has to point to a live object of the class *)
Definition m_pRealDevice (this : positive) : M E Ptr :=
  fun w => match heap w !! this with
           | Some (DeviceA p) => Some (p, w)
           | _ => None
           end.

(* new WrapperIDirectInputDevice8A(pRealDevice) *)
Definition new (pRealDevice : Ptr) : M E positive :=
  let* this := operator_new (DeviceA pRealDevice) in
  let* _ := Log "WrapperIDirectInputDevice8A created." in
  ret this.

Definition AddRef (this : positive) : M E ULONG :=
  let* p := m_pRealDevice this in
  through p real_AddRef.

Definition QueryInterface (this : positive) (riid : GUID) (ppvObj : Ptr)
  : M E (HRESULT * Ptr) :=
  if IsEqualGUID riid IID_IUnknown || IsEqualGUID riid IID_IDirectInputDevice8A then
    let ppvObj := Proxy this in
    let* _ := AddRef this in
    ret (S_OK, ppvObj)
  else
    let* p := m_pRealDevice this in
    through p (fun h => real_QueryInterface h riid ppvObj).

Definition Release (this : positive) : M E ULONG :=
  let* p := m_pRealDevice this in
  let* uRet := through p real_Release in
  let* _ := (if uRet =? 0 then operator_delete this else ret tt) in
  ret uRet.

Definition GetDeviceState (this : positive) (cbData : DWORD) (lpvData : LPVOID)
  : M E HRESULT :=
  let* p := m_pRealDevice this in
  let* hr := through_mem p (fun h => real_GetDeviceState h cbData lpvData) in
  let* _ := (if SUCCEEDED hr && (cbData =? sizeof_DIJOYSTATE) then
               (* Zero out rotational X and Y (Rx and Ry) for 6DOF device *)
               let state := lpvData in
               let* _ := write_LONG (state + offsetof_lRx) 0 in
               write_LONG (state + offsetof_lRy) 0
             else ret tt) in
  ret hr.
End methods.
End WrapperIDirectInputDevice8A.

(** ** class WrapperIDirectInput8A *)

Module WrapperIDirectInput8A.
Section methods.
Context `{Genuine E}.

Definition m_pRealDInput (this : positive) : M E Ptr :=
  fun w => match heap w !! this with
           | Some (DInputA p) => Some (p, w)
           | _ => None
           end.

(* new WrapperIDirectInput8A(pRealDInput) *)
Definition new (pRealDInput : Ptr) : M E positive :=
  operator_new (DInputA pRealDInput).

Definition AddRef (this : positive) : M E ULONG :=
  let* p := m_pRealDInput this in
  through p real_AddRef.

Definition QueryInterface (this : positive) (riid : GUID) (ppvObj : Ptr)
  : M E (HRESULT * Ptr) :=
  if IsEqualGUID riid IID_IUnknown || IsEqualGUID riid IID_IDirectInput8A then
    let ppvObj := Proxy this in
    let* _ := AddRef this in
    ret (S_OK, ppvObj)
  else
    let* p := m_pRealDInput this in
    through p (fun h => real_QueryInterface h riid ppvObj).

Definition Release (this : positive) : M E ULONG :=
  let* p := m_pRealDInput this in
  let* uRet := through p real_Release in
  let* _ := (if uRet =? 0 then operator_delete this else ret tt) in
  ret uRet.

Definition CreateDevice (this : positive) (rguid : GUID)
    (lplpDirectInputDevice : Ptr) (pUnkOuter : Ptr) : M E (HRESULT * Ptr) :=
  let* _ := Log "CreateDevice() called." in
  let pRealDevice := nullptr in
  let* p := m_pRealDInput this in
  let* '(hr, pRealDevice) :=
    through p (fun h => real_CreateDevice h rguid pRealDevice pUnkOuter) in
  if SUCCEEDED hr then
    let dwSize := sizeof_DIDEVICEINSTANCEA in
    let* '(hr_info, didi) := through pRealDevice (fun d => real_GetDeviceInfo d dwSize) in
    if SUCCEEDED hr_info then
      let* _ := Log ("Device Info: " ++ tszProductName didi) in
      let* _ := Log ("Device Type: 0x" ++ hex8 (dwDevType didi)) in
      if (GET_DIDEVICE_TYPE (dwDevType didi) =? DI8DEVTYPE_1STPERSON)
         && (GET_DIDEVICE_SUBTYPE (dwDevType didi) =? DI8DEVTYPE1STPERSON_SIXDOF) then
        let* _ := Log "Device is a six degrees of freedom, first-person controller. Wrapping it." in
        let* wrapper := WrapperIDirectInputDevice8A.new pRealDevice in
        ret (hr, Proxy wrapper)
      else
        let* _ := Log "Device is not a six degrees of freedom, first-person controller. Passing it through." in
        ret (hr, pRealDevice)
    else
      let* _ := Log "Could not get device info. Passing it through." in
      ret (hr, pRealDevice)
  else
    ret (hr, lplpDirectInputDevice).
End methods.
End WrapperIDirectInput8A.

(** ** class WrapperIDirectInputDevice8W *)

Module WrapperIDirectInputDevice8W.
Section methods.
Context `{Genuine E}.

Definition m_pRealDevice (this : positive) : M E Ptr :=
  fun w => match heap w !! this with
           | Some (DeviceW p) => Some (p, w)
           | _ => None
           end.

(* new WrapperIDirectInputDevice8W(pRealDevice) *)
Definition new (pRealDevice : Ptr) : M E positive :=
  let* this := operator_new (DeviceW pRealDevice) in
  let* _ := Log "WrapperIDirectInputDevice8W created." in
  ret this.

Definition AddRef (this : positive) : M E ULONG :=
  let* p := m_pRealDevice this in
  through p real_AddRef.

Definition QueryInterface (this : positive) (riid : GUID) (ppvObj : Ptr)
  : M E (HRESULT * Ptr) :=
  if IsEqualGUID riid IID_IUnknown || IsEqualGUID riid IID_IDirectInputDevice8W then
    let ppvObj := Proxy this in
    let* _ := AddRef this in
    ret (S_OK, ppvObj)
  else
    let* p := m_pRealDevice this in
    through p (fun h => real_QueryInterface h riid ppvObj).

Definition Release (this : positive) : M E ULONG :=
  let* p := m_pRealDevice this in
  let* uRet := through p real_Release in
  let* _ := (if uRet =? 0 then operator_delete this else ret tt) in
  ret uRet.

Definition GetDeviceState (this : positive) (cbData : DWORD) (lpvData : LPVOID)
  : M E HRESULT :=
  let* p := m_pRealDevice this in
  let* hr := through_mem p (fun h => real_GetDeviceState h cbData lpvData) in
  let* _ := (if SUCCEEDED hr && (cbData =? sizeof_DIJOYSTATE) then
               let state := lpvData in
               let* _ := write_LONG (state + offsetof_lRx) 0 in
               write_LONG (state + offsetof_lRy) 0
             else ret tt) in
  ret hr.
End methods.
End WrapperIDirectInputDevice8W.

(** ** class WrapperIDirectInput8W *)

Module WrapperIDirectInput8W.
Section methods.
Context `{Genuine E}.

Definition m_pRealDInput (this : positive) : M E Ptr :=
  fun w => match heap w !! this with
           | Some (DInputW p) => Some (p, w)
           | _ => None
           end.

(* new WrapperIDirectInput8W(pRealDInput) *)
Definition new (pRealDInput : Ptr) : M E positive :=
  operator_new (DInputW pRealDInput).

Definition AddRef (this : positive) : M E ULONG :=
  let* p := m_pRealDInput this in
  through p real_AddRef.

Definition QueryInterface (this : positive) (riid : GUID) (ppvObj : Ptr)
  : M E (HRESULT * Ptr) :=
  if IsEqualGUID riid IID_IUnknown || IsEqualGUID riid IID_IDirectInput8W then
    let ppvObj := Proxy this in
    let* _ := AddRef this in
    ret (S_OK, ppvObj)
  else
    let* p := m_pRealDInput this in
    through p (fun h => real_QueryInterface h riid ppvObj).

Definition Release (this : positive) : M E ULONG :=
  let* p := m_pRealDInput this in
  let* uRet := through p real_Release in
  let* _ := (if uRet =? 0 then operator_delete this else ret tt) in
  ret uRet.

Definition CreateDevice (this : positive) (rguid : GUID)
    (lplpDirectInputDevice : Ptr) (pUnkOuter : Ptr) : M E (HRESULT * Ptr) :=
  let* _ := Log "CreateDevice() called." in
  let pRealDevice := nullptr in
  let* p := m_pRealDInput this in
  let* '(hr, pRealDevice) :=
    through p (fun h => real_CreateDevice h rguid pRealDevice pUnkOuter) in
  if SUCCEEDED hr then
    let dwSize := sizeof_DIDEVICEINSTANCEW in
    let* '(hr_info, didi) := through pRealDevice (fun d => real_GetDeviceInfo d dwSize) in
    if SUCCEEDED hr_info then
      let* _ := Log ("Device Info: " ++ tszProductName didi) in
      let* _ := Log ("Device Type: 0x" ++ hex8 (dwDevType didi)) in
      if (GET_DIDEVICE_TYPE (dwDevType didi) =? DI8DEVTYPE_1STPERSON)
         && (GET_DIDEVICE_SUBTYPE (dwDevType didi) =? DI8DEVTYPE1STPERSON_SIXDOF) then
        let* _ := Log "Device is a six degrees of freedom, first-person controller. Wrapping it." in
        let* wrapper := WrapperIDirectInputDevice8W.new pRealDevice in
        ret (hr, Proxy wrapper)
      else
        let* _ := Log "Device is not a six degrees of freedom, first-person controller. Passing it through." in
        ret (hr, pRealDevice)
    else
      let* _ := Log "Could not get device info. Passing it through." in
      ret (hr, pRealDevice)
  else
    ret (hr, lplpDirectInputDevice).
End methods.
End WrapperIDirectInput8W.

(** ** The DLL export *)

Section DllExport.
Context `{Genuine E}.

(* The block guarded by [if (!g_pfnDirectInput8Create)].  The result
   is the pointer the rest of the function calls through, or [None]
   where the block leaves with [return E_FAIL]. *)
Definition resolve_g_pfnDirectInput8Create : M E (option FARPROC) :=
  fun w =>
    match g_pfnDirectInput8Create w with
    | Some pfn => Some (Some pfn, w)
    | None =>
        (let* szSystemPath := sys (fun e => (GetSystemDirectoryA e, e)) in
         let szSystemPath := (szSystemPath ++ "\dinput8.dll")%string in
         let* hMod := sys (LoadLibraryA szSystemPath) in
         match hMod with
         | None => ret None
         | Some hMod =>
             let* pfn := sys (GetProcAddress hMod "DirectInput8Create") in
             let* _ := (fun w => Some (tt, set_g_pfnDirectInput8Create pfn w)) in
             ret pfn
         end) w
    end.

(* The rest of the function, from the Log call to [return hr], with
   the global pointer read as [pfn]. *)
Definition DirectInput8Create_through (pfn : FARPROC)
    (hinst : HINSTANCE) (dwVersion : DWORD) (riid : GUID) (ppvOut : Ptr)
    (punkOuter : Ptr) : M E (HRESULT * Ptr) :=
  let* _ := Log "DirectInput8Create() export called by the game." in
  if IsEqualGUID riid IID_IDirectInput8A then
    let* _ := Log "Game requested ANSI interface (IDirectInput8A)." in
    let pRealDInputA := nullptr in
    let* '(hr, pRealDInputA) :=
      sys (call_DirectInput8Create pfn hinst dwVersion IID_IDirectInput8A pRealDInputA punkOuter) in
    if SUCCEEDED hr then
      let* wrapper := WrapperIDirectInput8A.new pRealDInputA in
      ret (hr, Proxy wrapper)
    else ret (hr, ppvOut)
  else if IsEqualGUID riid IID_IDirectInput8W then
    let* _ := Log "Game requested Unicode interface (IDirectInput8W)." in
    let pRealDInputW := nullptr in
    let* '(hr, pRealDInputW) :=
      sys (call_DirectInput8Create pfn hinst dwVersion IID_IDirectInput8W pRealDInputW punkOuter) in
    if SUCCEEDED hr then
      let* wrapper := WrapperIDirectInput8W.new pRealDInputW in
      ret (hr, Proxy wrapper)
    else ret (hr, ppvOut)
  else
    let* _ := Log "Game requested an unknown interface. Passing call to real DLL." in
    sys (call_DirectInput8Create pfn hinst dwVersion riid ppvOut punkOuter).

(* extern "C" HRESULT WINAPI DirectInput8Create(hinst, dwVersion, riid, ppvOut, punkOuter) *)
Definition DirectInput8Create (hinst : HINSTANCE) (dwVersion : DWORD) (riid : GUID)
    (ppvOut : Ptr) (punkOuter : Ptr) : M E (HRESULT * Ptr) :=
  let* pfn := resolve_g_pfnDirectInput8Create in
  match pfn with
  | None => ret (E_FAIL, ppvOut)
  | Some pfn => DirectInput8Create_through pfn hinst dwVersion riid ppvOut punkOuter
  end.
End DllExport.

(* the path DirectInput8Create builds in szSystemPath *)
Definition system_dinput8 `{Genuine E} (e : E) : string :=
  (GetSystemDirectoryA e ++ "\dinput8.dll")%string.

(* In world [w] the export has the genuine creation function [pfn] at
   hand and the genuine side is in state [e1] when it is called: the
   pointer is cached already, or it is not and loading the library and
   resolving the export both succeed. *)
Definition genuine_function_at_hand `{Genuine E} (w : World E) (pfn : FARPROC) (e1 : E) : Prop :=
  (g_pfnDirectInput8Create w = Some pfn /\ e1 = genuine w) \/
  (g_pfnDirectInput8Create w = None /\
   exists hMod e0,
     LoadLibraryA (system_dinput8 (genuine w)) (genuine w) = (Some hMod, e0) /\
     GetProcAddress hMod "DirectInput8Create" e0 = (Some pfn, e1)).

(** ** Calls a game makes through an interface pointer

    A call [p->Method(...)] goes through the vtable of whatever [p]
    points to: a genuine object answers itself, a wrapper object answers
    with the method of its class. *)

Section VirtualCalls.
Context `{Genuine E}.

Definition class_of (a : positive) : M E Object :=
  fun w => match heap w !! a with Some o => Some (o, w) | None => None end.

Definition IUnknown_AddRef (p : Ptr) : M E ULONG :=
  match p with
  | nullptr => undefined
  | Real h => sys (real_AddRef h)
  | Proxy a =>
      let* o := class_of a in
      match o with
      | DeviceA _ => WrapperIDirectInputDevice8A.AddRef a
      | DInputA _ => WrapperIDirectInput8A.AddRef a
      | DeviceW _ => WrapperIDirectInputDevice8W.AddRef a
      | DInputW _ => WrapperIDirectInput8W.AddRef a
      end
  end.

Definition IUnknown_Release (p : Ptr) : M E ULONG :=
  match p with
  | nullptr => undefined
  | Real h => sys (real_Release h)
  | Proxy a =>
      let* o := class_of a in
      match o with
      | DeviceA _ => WrapperIDirectInputDevice8A.Release a
      | DInputA _ => WrapperIDirectInput8A.Release a
      | DeviceW _ => WrapperIDirectInputDevice8W.Release a
      | DInputW _ => WrapperIDirectInput8W.Release a
      end
  end.

Definition IUnknown_QueryInterface (p : Ptr) (riid : GUID) (ppvObj : Ptr)
  : M E (HRESULT * Ptr) :=
  match p with
  | nullptr => undefined
  | Real h => sys (real_QueryInterface h riid ppvObj)
  | Proxy a =>
      let* o := class_of a in
      match o with
      | DeviceA _ => WrapperIDirectInputDevice8A.QueryInterface a riid ppvObj
      | DInputA _ => WrapperIDirectInput8A.QueryInterface a riid ppvObj
      | DeviceW _ => WrapperIDirectInputDevice8W.QueryInterface a riid ppvObj
      | DInputW _ => WrapperIDirectInput8W.QueryInterface a riid ppvObj
      end
  end.

(* a call on an IDirectInputDevice8A* or IDirectInputDevice8W* *)
Definition IDirectInputDevice8_GetDeviceState (p : Ptr) (cbData : DWORD) (lpvData : LPVOID)
  : M E HRESULT :=
  match p with
  | nullptr => undefined
  | Real h => through_mem (Real h) (fun h => real_GetDeviceState h cbData lpvData)
  | Proxy a =>
      let* o := class_of a in
      match o with
      | DeviceA _ => WrapperIDirectInputDevice8A.GetDeviceState a cbData lpvData
      | DeviceW _ => WrapperIDirectInputDevice8W.GetDeviceState a cbData lpvData
      | DInputA _ | DInputW _ => undefined
      end
  end.

(* a call on an IDirectInput8A* or IDirectInput8W* *)
Definition IDirectInput8_CreateDevice (p : Ptr) (rguid : GUID)
    (lplpDirectInputDevice : Ptr) (pUnkOuter : Ptr) : M E (HRESULT * Ptr) :=
  match p with
  | nullptr => undefined
  | Real h => sys (real_CreateDevice h rguid lplpDirectInputDevice pUnkOuter)
  | Proxy a =>
      let* o := class_of a in
      match o with
      | DInputA _ => WrapperIDirectInput8A.CreateDevice a rguid lplpDirectInputDevice pUnkOuter
      | DInputW _ => WrapperIDirectInput8W.CreateDevice a rguid lplpDirectInputDevice pUnkOuter
      | DeviceA _ | DeviceW _ => undefined
      end
  end.
End VirtualCalls.

(** ** Sequences of reference-counting calls *)

Inductive call :=
| AddRef_on (p : Ptr)
| Release_on (p : Ptr)
| QueryInterface_on (p : Ptr) (riid : GUID).

Section Calls.
Context `{Genuine E}.

Definition perform (c : call) : M E unit :=
  match c with
  | AddRef_on p => let* _ := IUnknown_AddRef p in ret tt
  | Release_on p => let* _ := IUnknown_Release p in ret tt
  | QueryInterface_on p riid => let* _ := IUnknown_QueryInterface p riid nullptr in ret tt
  end.

Fixpoint perform_all (cs : list call) : M E unit :=
  match cs with
  | [] => ret tt
  | c :: cs => let* _ := perform c in perform_all cs
  end.
End Calls.

(* the genuine object a wrapper object holds *)
Definition wrapped (o : Object) : Ptr :=
  match o with DeviceA p | DInputA p | DeviceW p | DInputW p => p end.

(* the interface a wrapper class implements *)
Definition IID_of (o : Object) : GUID :=
  match o with
  | DeviceA _ => IID_IDirectInputDevice8A
  | DInputA _ => IID_IDirectInput8A
  | DeviceW _ => IID_IDirectInputDevice8W
  | DInputW _ => IID_IDirectInput8W
  end.

(* sizeof(didi) in the CreateDevice of a factory wrapper class *)
Definition sizeof_DIDEVICEINSTANCE_of (factory : Object) : Z :=
  match factory with
  | DInputA _ | DeviceA _ => sizeof_DIDEVICEINSTANCEA
  | DInputW _ | DeviceW _ => sizeof_DIDEVICEINSTANCEW
  end.

(* the test CreateDevice makes on the reported device type *)
Definition first_person_sixdof (dwDevType : DWORD) : Prop :=
  GET_DIDEVICE_TYPE dwDevType = DI8DEVTYPE_1STPERSON /\
  GET_DIDEVICE_SUBTYPE dwDevType = DI8DEVTYPE1STPERSON_SIXDOF.

Definition is_device (o : Object) : bool :=
  match o with DeviceA _ | DeviceW _ => true | DInputA _ | DInputW _ => false end.

Definition is_factory (o : Object) : bool := negb (is_device o).

(* the device wrapper class that goes with a factory wrapper class *)
Definition device_of (factory : Object) (pRealDevice : Ptr) : Object :=
  match factory with
  | DInputA _ | DeviceA _ => DeviceA pRealDevice
  | DInputW _ | DeviceW _ => DeviceW pRealDevice
  end.

(* a call made on the wrapper at [a] that the wrapper answers itself or
   turns into one AddRef or Release of the object it wraps *)
Definition on_proxy (a : positive) (o : Object) (c : call) : Prop :=
  match c with
  | AddRef_on p | Release_on p => p = Proxy a
  | QueryInterface_on p riid =>
      p = Proxy a /\ (riid = IID_IUnknown \/ riid = IID_of o)
  end.

(** A genuine object counts its references when [AddRef] and [Release]
    move a counter by one and report its new value. *)
Definition counts_references `{Genuine E} (h : positive) (count : E -> Z) : Prop :=
  (forall e, fst (real_AddRef h e) = count e + 1 /\
             count (snd (real_AddRef h e)) = count e + 1) /\
  (forall e, 0 < count e ->
             fst (real_Release h e) = count e - 1 /\
             count (snd (real_Release h e)) = count e - 1).

(* the wrapper at [a] and the object it wraps exist together, or are
   both gone *)
Definition in_lockstep {E} (count : E -> Z) (a : positive) (o : Object) (w : World E) : Prop :=
  heap w !! a = Some o /\ 0 < count (genuine w) \/
  heap w !! a = None /\ count (genuine w) = 0.

(** ** A stand-in for the genuine library

    A small scripted implementation of [Genuine], used to run the
    wrapper on concrete inputs: objects that count their references, one
    DirectInput object (handle 10), one device (handle 20) whose type
    and answers are fixed by the script. *)

Module Double.
Record state := script {
  refs : gmap positive Z;     (* reference counts of the live objects *)
  loads : Z;                  (* calls of LoadLibraryA so far *)
  dll_present : bool;         (* the system directory has a dinput8.dll *)
  export_present : bool;      (* which exports DirectInput8Create *)
  create_hr : HRESULT;        (* answer of CreateDevice *)
  info_hr : HRESULT;          (* answer of GetDeviceInfo *)
  devtype : DWORD;            (* dwDevType of the device *)
  poll_hr : HRESULT           (* answer of GetDeviceState *)
}.

Definition with_refs (r : gmap positive Z) (s : state) : state :=
  script r (loads s) (dll_present s) (export_present s)
         (create_hr s) (info_hr s) (devtype s) (poll_hr s).

Definition count (h : positive) (s : state) : Z := default 0 (refs s !! h).

Definition add_ref (h : positive) (s : state) : ULONG * state :=
  let c := count h s + 1 in (c, with_refs (<[h := c]> (refs s)) s).

Definition release (h : positive) (s : state) : ULONG * state :=
  let c := count h s - 1 in
  (c, with_refs (if c =? 0 then delete h (refs s) else <[h := c]> (refs s)) s).

(* every interface is served by the object itself *)
Definition query (h : positive) (riid : GUID) (ppv : Ptr) (s : state)
  : HRESULT * Ptr * state :=
  (S_OK, Real h, snd (add_ref h s)).

Definition load_library (path : string) (s : state) : option HMODULE * state :=
  (if dll_present s then Some 1%positive else None,
   script (refs s) (loads s + 1) (dll_present s) (export_present s)
          (create_hr s) (info_hr s) (devtype s) (poll_hr s)).

Definition get_proc (hMod : HMODULE) (name : string) (s : state)
  : option FARPROC * state :=
  (if export_present s then Some 2%positive else None, s).

Definition create (pfn : FARPROC) (hinst : HINSTANCE) (ver : DWORD) (riid : GUID)
    (ppv punk : Ptr) (s : state) : HRESULT * Ptr * state :=
  (S_OK, Real 10, with_refs (<[10%positive := 1]> (refs s)) s).

(* the script once the device exists, holding one reference *)
Definition with_device (s : state) : state :=
  with_refs (<[20%positive := 1]> (refs s)) s.

Definition create_device (h : positive) (rguid : GUID) (ppv punk : Ptr) (s : state)
  : HRESULT * Ptr * state :=
  if SUCCEEDED (create_hr s)
  then (create_hr s, Real 20, with_device s)
  else (create_hr s, ppv, s).

Definition device_info (h : positive) (dwSize : DWORD) (s : state)
  : HRESULT * DIDEVICEINSTANCE * state :=
  (info_hr s, {| dwDevType := devtype s; tszProductName := "Wireless Controller" |}, s).

(* the six axes read 1, 2, 3, 150, -200, 6 and the first button is down *)
Definition fill (m : Mem) (p : LPVOID) : Mem :=
  store_BYTE
    (store_LONG (store_LONG (store_LONG (store_LONG (store_LONG (store_LONG m
      (p + offsetof_lX) 1) (p + offsetof_lY) 2) (p + offsetof_lZ) 3)
      (p + offsetof_lRx) 150) (p + offsetof_lRy) (-200)) (p + offsetof_lRz) 6)
    (p + offsetof_rgbButtons) 0x80.

Definition device_state (h : positive) (cbData : DWORD) (lpvData : LPVOID)
    (s : state) (m : Mem) : HRESULT * state * Mem :=
  (poll_hr s, s, if SUCCEEDED (poll_hr s) then fill m lpvData else m).

#[global] Instance genuine : Genuine state := {|
  GetSystemDirectoryA := fun _ => "C:\Windows\system32"%string;
  LoadLibraryA := load_library;
  GetProcAddress := get_proc;
  call_DirectInput8Create := create;
  real_QueryInterface := query;
  real_AddRef := add_ref;
  real_Release := release;
  real_CreateDevice := create_device;
  real_GetDeviceInfo := device_info;
  real_GetDeviceState := device_state
|}.

(* a six-degrees-of-freedom first-person device behind a healthy library *)
Definition sixdof : state :=
  script {[ 10%positive := 1; 20%positive := 1 ]} 0 true true S_OK S_OK 0x00010318 S_OK.

(* an ordinary gamepad *)
Definition gamepad : state :=
  script {[ 10%positive := 1; 20%positive := 1 ]} 0 true true S_OK S_OK 0x00010215 S_OK.

(* the same device answering GetDeviceState with [hr] *)
Definition polling (hr : HRESULT) : state :=
  script {[ 10%positive := 1; 20%positive := 1 ]} 0 true true S_OK S_OK 0x00010318 hr.

(* a device that does not answer GetDeviceInfo *)
Definition mute : state :=
  script {[ 10%positive := 1; 20%positive := 1 ]} 0 true true S_OK E_FAIL 0x00010318 S_OK.

(* no dinput8.dll in the system directory *)
Definition no_dll : state :=
  script ∅ 0 false true S_OK S_OK 0 S_OK.

(* a dinput8.dll without the export *)
Definition no_export : state :=
  script ∅ 0 true false S_OK S_OK 0 S_OK.

Definition zeroes : Mem := fun _ => 0.

(* the wrapper's state after a game created the ANSI factory (at 1)
   and a wrapped device (at 2) *)
Definition world (s : state) : World state :=
  mkWorld s zeroes {[ 1%positive := DInputA (Real 10); 2%positive := DeviceA (Real 20) ]}
          (Some 2%positive) false [].

(* the wrapper's state when the DLL has just been loaded *)
Definition fresh_world (s : state) : World state :=
  mkWorld s zeroes ∅ None false [].
End Double.

(** ** The pass-through methods of the device wrappers

    The device methods on the path of a polling game: the calls that
    set the device up (SetDataFormat, Acquire), the ones of the polling
    loop (Poll) and the buffered retrieval (GetDeviceData), with the
    methods of the real device they hand the call to. *)

Class GenuineDevice (E : Type) := {
  real_Acquire : positive -> E -> HRESULT * E;
  real_Unacquire : positive -> E -> HRESULT * E;
  real_Poll : positive -> E -> HRESULT * E;
  (* SetDataFormat(lpdf) reads the format lpdf points to *)
  real_SetDataFormat : positive -> LPVOID -> E -> Mem -> HRESULT * E;
  (* GetDeviceData(cbObjectData, rgdod, pdwInOut, dwFlags) fills rgdod
     and *pdwInOut *)
  real_GetDeviceData :
    positive -> DWORD -> LPVOID -> LPVOID -> DWORD -> E -> Mem -> HRESULT * E * Mem
}.

Module PassThroughDevice8A.
Section methods.
Context `{Genuine E} `{GenuineDevice E}.

Definition Acquire (this : positive) : M E HRESULT :=
  let* _ := Log "Acquire() called." in
  let* p := WrapperIDirectInputDevice8A.m_pRealDevice this in
  through p real_Acquire.

Definition Unacquire (this : positive) : M E HRESULT :=
  let* _ := Log "Unacquire() called." in
  let* p := WrapperIDirectInputDevice8A.m_pRealDevice this in
  through p real_Unacquire.

Definition Poll (this : positive) : M E HRESULT :=
  let* p := WrapperIDirectInputDevice8A.m_pRealDevice this in
  through p real_Poll.

Definition SetDataFormat (this : positive) (lpdf : LPVOID) : M E HRESULT :=
  let* p := WrapperIDirectInputDevice8A.m_pRealDevice this in
  fun w => through p (fun h e => real_SetDataFormat h lpdf e (memory w)) w.

Definition GetDeviceData (this : positive) (cbObjectData : DWORD) (rgdod : LPVOID)
    (pdwInOut : LPVOID) (dwFlags : DWORD) : M E HRESULT :=
  let* p := WrapperIDirectInputDevice8A.m_pRealDevice this in
  through_mem p (fun h => real_GetDeviceData h cbObjectData rgdod pdwInOut dwFlags).
End methods.
End PassThroughDevice8A.

Module PassThroughDevice8W.
Section methods.
Context `{Genuine E} `{GenuineDevice E}.

Definition Acquire (this : positive) : M E HRESULT :=
  let* p := WrapperIDirectInputDevice8W.m_pRealDevice this in
  through p real_Acquire.

Definition Unacquire (this : positive) : M E HRESULT :=
  let* p := WrapperIDirectInputDevice8W.m_pRealDevice this in
  through p real_Unacquire.

Definition Poll (this : positive) : M E HRESULT :=
  let* p := WrapperIDirectInputDevice8W.m_pRealDevice this in
  through p real_Poll.

Definition SetDataFormat (this : positive) (lpdf : LPVOID) : M E HRESULT :=
  let* p := WrapperIDirectInputDevice8W.m_pRealDevice this in
  fun w => through p (fun h e => real_SetDataFormat h lpdf e (memory w)) w.

Definition GetDeviceData (this : positive) (cbObjectData : DWORD) (rgdod : LPVOID)
    (pdwInOut : LPVOID) (dwFlags : DWORD) : M E HRESULT :=
  let* p := WrapperIDirectInputDevice8W.m_pRealDevice this in
  through_mem p (fun h => real_GetDeviceData h cbObjectData rgdod pdwInOut dwFlags).
End methods.
End PassThroughDevice8W.

Section MoreVirtualCalls.
Context `{Genuine E} `{GenuineDevice E}.

Definition IDirectInputDevice8_Acquire (p : Ptr) : M E HRESULT :=
  match p with
  | nullptr => undefined
  | Real h => sys (real_Acquire h)
  | Proxy a =>
      let* o := class_of a in
      match o with
      | DeviceA _ => PassThroughDevice8A.Acquire a
      | DeviceW _ => PassThroughDevice8W.Acquire a
      | DInputA _ | DInputW _ => undefined
      end
  end.

Definition IDirectInputDevice8_Unacquire (p : Ptr) : M E HRESULT :=
  match p with
  | nullptr => undefined
  | Real h => sys (real_Unacquire h)
  | Proxy a =>
      let* o := class_of a in
      match o with
      | DeviceA _ => PassThroughDevice8A.Unacquire a
      | DeviceW _ => PassThroughDevice8W.Unacquire a
      | DInputA _ | DInputW _ => undefined
      end
  end.

Definition IDirectInputDevice8_Poll (p : Ptr) : M E HRESULT :=
  match p with
  | nullptr => undefined
  | Real h => sys (real_Poll h)
  | Proxy a =>
      let* o := class_of a in
      match o with
      | DeviceA _ => PassThroughDevice8A.Poll a
      | DeviceW _ => PassThroughDevice8W.Poll a
      | DInputA _ | DInputW _ => undefined
      end
  end.

Definition IDirectInputDevice8_SetDataFormat (p : Ptr) (lpdf : LPVOID) : M E HRESULT :=
  match p with
  | nullptr => undefined
  | Real h => fun w => sys (fun e => real_SetDataFormat h lpdf e (memory w)) w
  | Proxy a =>
      let* o := class_of a in
      match o with
      | DeviceA _ => PassThroughDevice8A.SetDataFormat a lpdf
      | DeviceW _ => PassThroughDevice8W.SetDataFormat a lpdf
      | DInputA _ | DInputW _ => undefined
      end
  end.

Definition IDirectInputDevice8_GetDeviceData (p : Ptr) (cbObjectData : DWORD)
    (rgdod : LPVOID) (pdwInOut : LPVOID) (dwFlags : DWORD) : M E HRESULT :=
  match p with
  | nullptr => undefined
  | Real h =>
      through_mem (Real h) (fun h => real_GetDeviceData h cbObjectData rgdod pdwInOut dwFlags)
  | Proxy a =>
      let* o := class_of a in
      match o with
      | DeviceA _ => PassThroughDevice8A.GetDeviceData a cbObjectData rgdod pdwInOut dwFlags
      | DeviceW _ => PassThroughDevice8W.GetDeviceData a cbObjectData rgdod pdwInOut dwFlags
      | DInputA _ | DInputW _ => undefined
      end
  end.
End MoreVirtualCalls.

(** ** DllMain *)

Definition DLL_PROCESS_ATTACH : DWORD := 1.
Definition TRUE : Z := 1.

(* BOOL APIENTRY DllMain(hModule, ul_reason_for_call, lpReserved) *)
Definition DllMain {E} (hModule : Z) (ul_reason_for_call : DWORD) (lpReserved : LPVOID)
  : M E Z :=
  let* _ := (if ul_reason_for_call =? DLL_PROCESS_ATTACH
             then Log "DLL attached to process."
             else ret tt) in
  ret TRUE.

(** ** Vocabulary of the further properties *)

(* two worlds that differ at most in the logging switch and the log *)
Definition same_but_log {E} (w1 w2 : World E) : Prop :=
  genuine w1 = genuine w2 /\ memory w1 = memory w2 /\ heap w1 = heap w2 /\
  g_pfnDirectInput8Create w1 = g_pfnDirectInput8Create w2.

(* a computation whose result and effects do not depend on logging *)
Definition log_blind {E A} (m : M E A) : Prop :=
  forall w1 w2, same_but_log w1 w2 ->
    match m w1, m w2 with
    | Some (x1, w1'), Some (x2, w2') => x1 = x2 /\ same_but_log w1' w2'
    | None, None => True
    | _, _ => False
    end.

(* from [w] to [w'] every wrapper object is still there and the cached
   function pointer and the logging switch are what they were *)
Definition keeps_objects {E} (w w' : World E) : Prop :=
  heap w ⊆ heap w' /\
  g_pfnDirectInput8Create w' = g_pfnDirectInput8Create w /\
  log_enabled w' = log_enabled w.

(* every defined run of [m] relates the worlds before and after by [R] *)
Definition always {E A} (R : World E -> World E -> Prop) (m : M E A) : Prop :=
  forall w x w', m w = Some (x, w') -> R w w'.

(* the factory wrapper class DirectInput8Create allocates for [riid] *)
Definition factory_of (riid : GUID) (pRealDInput : Ptr) : Object :=
  if IsEqualGUID riid IID_IDirectInput8A then DInputA pRealDInput else DInputW pRealDInput.

(* reading back the digits written by std::hex *)
Definition hex_value (c : ascii) : option Z :=
  let n := Z.of_nat (nat_of_ascii c) in
  if (48 <=? n) && (n <=? 57) then Some (n - 48)
  else if (97 <=? n) && (n <=? 102) then Some (n - 87)
  else None.

Fixpoint read_hex (acc : Z) (s : string) : option Z :=
  match s with
  | EmptyString => Some acc
  | String c s =>
      match hex_value c with
      | Some d => read_hex (16 * acc + d) s
      | None => None
      end
  end.

(** ** The stand-in's device methods *)

Module DoubleDevice.
(* one buffered event: the Rx axis (offset 12) moved to 150 *)
Definition events (m : Mem) (rgdod pdwInOut : LPVOID) : Mem :=
  store_LONG (store_LONG (store_LONG m rgdod offsetof_lRx) (rgdod + 4) 150) pdwInOut 1.

#[global] Instance genuine : GenuineDevice Double.state := {|
  real_Acquire := fun _ s => (S_OK, s);
  real_Unacquire := fun _ s => (S_OK, s);
  real_Poll := fun _ s => (S_OK, s);
  real_SetDataFormat := fun _ _ s _ => (S_OK, s);
  real_GetDeviceData := fun _ _ rgdod pdwInOut _ s m => (S_OK, s, events m rgdod pdwInOut)
|}.

(* the world of the stand-in with logging switched on *)
Definition logging (s : Double.state) : World Double.state :=
  mkWorld s Double.zeroes
          {[ 1%positive := DInputA (Real 10); 2%positive := DeviceA (Real 20) ]}
          (Some 2%positive) true [].
End DoubleDevice.

(** ** A genuine library that refuses

    Every call fails with E_FAIL; the creation calls store a pointer in
    their output cell all the same.  The state counts the calls that
    reached the library. *)

Module Refusing.
Definition state := Z.

#[global] Instance genuine : Genuine state := {|
  GetSystemDirectoryA := fun _ => "C:\Windows\system32"%string;
  LoadLibraryA := fun _ n => (Some 1%positive, n);
  GetProcAddress := fun _ _ n => (Some 2%positive, n);
  call_DirectInput8Create := fun _ _ _ _ _ _ n => (E_FAIL, Real 99, n + 1);
  real_QueryInterface := fun _ _ ppv n => (E_FAIL, ppv, n + 1);
  real_AddRef := fun _ n => (2, n + 1);
  real_Release := fun _ n => (1, n + 1);
  real_CreateDevice := fun _ _ _ _ n => (E_FAIL, Real 99, n + 1);
  real_GetDeviceInfo := fun _ _ n =>
    (E_FAIL, {| dwDevType := 0; tszProductName := "" |}, n + 1);
  real_GetDeviceState := fun _ _ _ n m => (E_FAIL, n + 1, m)
|}.

(* a Unicode factory wrapper at 1, the function pointer cached *)
Definition world : World state :=
  mkWorld 0 (fun _ => 0) {[ 1%positive := DInputW (Real 10) ]} (Some 2%positive) false [].

(* the same with logging switched on *)
Definition logging : World state :=
  mkWorld 0 (fun _ => 0) {[ 1%positive := DInputW (Real 10) ]} (Some 2%positive) true [].
End Refusing.

(* from [w] to [w'] an export call has removed no wrapper object, left
   the logging switch alone and not replaced a pointer that was cached *)
Definition keeps_cache {E} (w w' : World E) : Prop :=
  heap w ⊆ heap w' /\
  log_enabled w' = log_enabled w /\
  (forall pfn, g_pfnDirectInput8Create w = Some pfn -> g_pfnDirectInput8Create w' = Some pfn).

(* from [w] to [w'] at most the wrapper object [p] points to is gone *)
Definition removes_at_most {E} (p : Ptr) (w w' : World E) : Prop :=
  g_pfnDirectInput8Create w' = g_pfnDirectInput8Create w /\
  log_enabled w' = log_enabled w /\
  (forall b, Proxy b <> p -> heap w' !! b = heap w !! b) /\
  (forall b, is_Some (heap w' !! b) -> heap w' !! b = heap w !! b).

(** ** The first revision

    The first half of the source file is an earlier revision of the
    wrapper, for the ANSI interfaces only.  Its classes have the
    methods of the second revision's ANSI classes word for word; what
    differs is the destructor of the device wrapper and the export. *)

From stdpp Require Import pretty.
Local Open Scope Z_scope.

(* two computations that do the same but for what they log *)
Definition log_equiv {E A} (m1 m2 : M E A) : Prop :=
  forall w1 w2, same_but_log w1 w2 ->
    match m1 w1, m2 w2 with
    | Some (x1, w1'), Some (x2, w2') => x1 = x2 /\ same_but_log w1' w2'
    | None, None => True
    | _, _ => False
    end.

Module Revision1.
Section code.
Context `{Genuine E}.

(* std::to_string(hr) *)
Definition to_string (hr : HRESULT) : string := pretty hr.

(* ~WrapperIDirectInputDevice8A().  No method assigns m_pDataFormat, so
   it is the null pointer it was initialised with and the destructor
   frees nothing. *)
Definition destroy_WrapperIDirectInputDevice8A (this : positive) : M E unit :=
  let m_pDataFormat := nullptr in
  match m_pDataFormat with
  | nullptr => Log "WrapperIDirectInputDevice8A destroyed."
  | _ => undefined
  end.

(* WrapperIDirectInputDevice8A::Release; [delete this] runs the
   destructor and frees the object *)
Definition WrapperIDirectInputDevice8A_Release (this : positive) : M E ULONG :=
  let* p := WrapperIDirectInputDevice8A.m_pRealDevice this in
  let* uRet := through p real_Release in
  let* _ := (if uRet =? 0 then
               let* _ := destroy_WrapperIDirectInputDevice8A this in
               operator_delete this
             else ret tt) in
  ret uRet.

(* the export from its Log call on, the global pointer read as [pfn] *)
Definition DirectInput8Create_through (pfn : FARPROC)
    (hinst : HINSTANCE) (dwVersion : DWORD) (riid : GUID) (ppvOut : Ptr)
    (punkOuter : Ptr) : M E (HRESULT * Ptr) :=
  let* _ := Log "DirectInput8Create() export called by the game." in
  if negb (IsEqualGUID riid IID_IDirectInput8A) then
    let* _ := Log "Game requested non-ANSI interface. Passing call to real DLL." in
    sys (call_DirectInput8Create pfn hinst dwVersion riid ppvOut punkOuter)
  else
    let pRealDInputA := nullptr in
    let* '(hr, pRealDInputA) :=
      sys (call_DirectInput8Create pfn hinst dwVersion IID_IDirectInput8A pRealDInputA punkOuter) in
    if SUCCEEDED hr then
      let* _ := Log "Successfully created real DirectInput8 object. Wrapping it now." in
      let* wrapper := WrapperIDirectInput8A.new pRealDInputA in
      ret (hr, Proxy wrapper)
    else
      let* _ := Log ("Failed to create real DirectInput8 object. HRESULT: " ++ to_string hr) in
      ret (hr, ppvOut).

Definition DirectInput8Create (hinst : HINSTANCE) (dwVersion : DWORD) (riid : GUID)
    (ppvOut : Ptr) (punkOuter : Ptr) : M E (HRESULT * Ptr) :=
  let* pfn := resolve_g_pfnDirectInput8Create in
  match pfn with
  | None => ret (E_FAIL, ppvOut)
  | Some pfn => DirectInput8Create_through pfn hinst dwVersion riid ppvOut punkOuter
  end.
End code.
End Revision1.

(** * Properties *)

(** ** Constants and layout *)

Example sizeof_DIJOYSTATE_is_80 : sizeof_DIJOYSTATE = 80.
Proof. reflexivity. Qed.

Example rotation_axes_at_12_and_16 : offsetof_lRx = 12 /\ offsetof_lRy = 16.
Proof. split; reflexivity. Qed.

Example failure_codes_are_negative :
  SUCCEEDED E_FAIL = false /\ SUCCEEDED DIERR_INPUTLOST = false /\ SUCCEEDED S_FALSE = true.
Proof. repeat split; reflexivity. Qed.

Example hex8_1stperson_sixdof : hex8 0x00010318 = "00010318"%string.
Proof. reflexivity. Qed.

Example sixdof_type_and_subtype :
  GET_DIDEVICE_TYPE 0x00010318 = DI8DEVTYPE_1STPERSON /\
  GET_DIDEVICE_SUBTYPE 0x00010318 = DI8DEVTYPE1STPERSON_SIXDOF.
Proof. split; reflexivity. Qed.

(** ** Memory *)

Lemma store_BYTE_same m a v : store_BYTE m a v a = Z.land v 0xff.
Proof. unfold store_BYTE. now rewrite Z.eqb_refl. Qed.

Lemma store_BYTE_other m a v a' : a' <> a -> store_BYTE m a v a' = m a'.
Proof. intros Hne. unfold store_BYTE. now apply Z.eqb_neq in Hne as ->. Qed.

Lemma store_LONG_other m a v a' :
  a' < a \/ a + 4 <= a' -> store_LONG m a v a' = m a'.
Proof.
  intros Hout. unfold store_LONG.
  rewrite !store_BYTE_other by lia. reflexivity.
Qed.

Lemma store_LONG_zero m a a' : a <= a' < a + 4 -> store_LONG m a 0 a' = 0.
Proof.
  intros Hin. unfold store_LONG.
  assert (a' = a \/ a' = a + 1 \/ a' = a + 2 \/ a' = a + 3) as [-> | [-> | [-> | ->]]] by lia.
  - rewrite !store_BYTE_other by lia. now rewrite store_BYTE_same.
  - rewrite !store_BYTE_other by lia. now rewrite store_BYTE_same.
  - rewrite store_BYTE_other by lia. now rewrite store_BYTE_same.
  - now rewrite store_BYTE_same.
Qed.

Lemma blank_rotation_inside m p a :
  p + offsetof_lRx <= a < p + offsetof_lRz -> blank_rotation m p a = 0.
Proof.
  unfold blank_rotation, offsetof_lRx, offsetof_lRy, offsetof_lRz, sizeof_LONG.
  intros Hin. destruct (Z_lt_ge_dec a (p + 4 * 4)) as [Hlt | Hge].
  - rewrite store_LONG_other by lia. apply store_LONG_zero. lia.
  - apply store_LONG_zero. lia.
Qed.

Lemma blank_rotation_outside m p a :
  ~ (p + offsetof_lRx <= a < p + offsetof_lRz) -> blank_rotation m p a = m a.
Proof.
  unfold blank_rotation, offsetof_lRx, offsetof_lRy, offsetof_lRz, sizeof_LONG.
  intros Hout. rewrite !store_LONG_other by lia. reflexivity.
Qed.

Lemma load_DWORD_agree m m' a :
  (forall i, 0 <= i < 4 -> m' (a + i) = m (a + i)) ->
  load_DWORD m' a = load_DWORD m a.
Proof.
  intros Hag. unfold load_DWORD.
  rewrite (Hag 1), (Hag 2), (Hag 3) by lia.
  specialize (Hag 0). rewrite Z.add_0_r in Hag. now rewrite Hag by lia.
Qed.

Lemma load_LONG_agree m m' a :
  (forall i, 0 <= i < 4 -> m' (a + i) = m (a + i)) ->
  load_LONG m' a = load_LONG m a.
Proof. intros Hag. unfold load_LONG. now rewrite (load_DWORD_agree m m'). Qed.

Lemma load_LONG_zero m a :
  (forall i, 0 <= i < 4 -> m (a + i) = 0) -> load_LONG m a = 0.
Proof.
  intros Hz. unfold load_LONG, load_DWORD.
  rewrite (Hz 1), (Hz 2), (Hz 3) by lia.
  specialize (Hz 0). rewrite Z.add_0_r in Hz. now rewrite Hz by lia.
Qed.

(* reading the struct back after the two assignments *)
Lemma load_blank_rotation m p :
  load_DIJOYSTATE (blank_rotation m p) p = without_rotation (load_DIJOYSTATE m p).
Proof.
  unfold load_DIJOYSTATE, without_rotation; cbn [lX lY lZ lRx lRy lRz rglSlider rgdwPOV rgbButtons].
  assert (Hout : forall a, a < p + 12 \/ p + 20 <= a -> blank_rotation m p a = m a).
  { intros a Ha. apply blank_rotation_outside.
    unfold offsetof_lRx, offsetof_lRz, sizeof_LONG. lia. }
  assert (Hin : forall a, p + 12 <= a < p + 20 -> blank_rotation m p a = 0).
  { intros a Ha. apply blank_rotation_inside.
    unfold offsetof_lRx, offsetof_lRz, sizeof_LONG. lia. }
  unfold offsetof_lX, offsetof_lY, offsetof_lZ, offsetof_lRx, offsetof_lRy, offsetof_lRz,
    offsetof_rgbButtons, offsetof_rgdwPOV, offsetof_rglSlider, sizeof_LONG.
  f_equal.
  - apply load_LONG_agree. intros i Hi. apply Hout. lia.
  - apply load_LONG_agree. intros i Hi. apply Hout. lia.
  - apply load_LONG_agree. intros i Hi. apply Hout. lia.
  - apply load_LONG_zero. intros i Hi. apply Hin. lia.
  - apply load_LONG_zero. intros i Hi. apply Hin. lia.
  - apply load_LONG_agree. intros i Hi. apply Hout. lia.
  - apply map_ext. intros n. apply load_LONG_agree. intros i Hi. apply Hout. lia.
  - apply map_ext. intros n. apply load_DWORD_agree. intros i Hi. apply Hout. lia.
  - apply map_ext. intros n. unfold load_BYTE. apply Hout. lia.
Qed.

(** ** State retrieval through a device wrapper *)

Section GetDeviceState.
Context `{Genuine E}.

(* what a call of GetDeviceState on a live device wrapper evaluates to *)
Lemma GetDeviceState_on_proxy (w : World E) a o h cbData lpvData :
  heap w !! a = Some o -> is_device o = true -> wrapped o = Real h ->
  IDirectInputDevice8_GetDeviceState (Proxy a) cbData lpvData w =
    let '(hr, e, m) := real_GetDeviceState h cbData lpvData (genuine w) (memory w) in
    Some (hr, mkWorld e
                (if SUCCEEDED hr && (cbData =? sizeof_DIJOYSTATE)
                 then blank_rotation m lpvData else m)
                (heap w) (g_pfnDirectInput8Create w) (log_enabled w) (log_file w)).
Proof.
  intros Ho Hdev Hreal.
  destruct o as [p | p | p | p]; cbn in Hdev, Hreal; try discriminate; subst p.
  - unfold IDirectInputDevice8_GetDeviceState, class_of, bind. rewrite Ho.
    unfold WrapperIDirectInputDevice8A.GetDeviceState,
      WrapperIDirectInputDevice8A.m_pRealDevice, bind. rewrite Ho. cbn.
    destruct (real_GetDeviceState h cbData lpvData (genuine w) (memory w)) as [[hr e] m].
    destruct (SUCCEEDED hr && (cbData =? sizeof_DIJOYSTATE)); reflexivity.
  - unfold IDirectInputDevice8_GetDeviceState, class_of, bind. rewrite Ho.
    unfold WrapperIDirectInputDevice8W.GetDeviceState,
      WrapperIDirectInputDevice8W.m_pRealDevice, bind. rewrite Ho. cbn.
    destruct (real_GetDeviceState h cbData lpvData (genuine w) (memory w)) as [[hr e] m].
    destruct (SUCCEEDED hr && (cbData =? sizeof_DIJOYSTATE)); reflexivity.
Qed.

(** C1. GetDeviceState on a device wrapper (ANSI or Unicode) with
    [cbData = sizeof(DIJOYSTATE)]: when the real device succeeds with
    [hr], having left memory [m1], the call returns [hr]; the caller
    reads [lRx = 0] and [lRy = 0] whatever [m1] held there, every
    other field of the struct as [m1] has it, and no byte outside the
    two fields differs from [m1]. *)
Theorem GetDeviceState_blanks_rotation (w : World E) a o h cbData lpvData hr e1 m1 :
  heap w !! a = Some o -> is_device o = true -> wrapped o = Real h ->
  real_GetDeviceState h cbData lpvData (genuine w) (memory w) = (hr, e1, m1) ->
  SUCCEEDED hr = true ->
  cbData = sizeof_DIJOYSTATE ->
  exists w',
    IDirectInputDevice8_GetDeviceState (Proxy a) cbData lpvData w = Some (hr, w') /\
    lRx (load_DIJOYSTATE (memory w') lpvData) = 0 /\
    lRy (load_DIJOYSTATE (memory w') lpvData) = 0 /\
    load_DIJOYSTATE (memory w') lpvData = without_rotation (load_DIJOYSTATE m1 lpvData) /\
    (forall addr, ~ (lpvData + offsetof_lRx <= addr < lpvData + offsetof_lRx + 8) ->
                  memory w' addr = m1 addr) /\
    genuine w' = e1 /\ heap w' = heap w.
Proof.
  intros Ho Hdev Hreal Hcall Hok ->.
  rewrite (GetDeviceState_on_proxy w a o h) by assumption.
  rewrite Hcall, Hok, Z.eqb_refl. cbn [andb].
  eexists. split; [reflexivity |]. cbn [memory genuine heap].
  rewrite load_blank_rotation.
  repeat split.
  intros addr Hout. apply blank_rotation_outside.
  unfold offsetof_lRx, offsetof_lRz, sizeof_LONG in *. lia.
Qed.

(** C4. GetDeviceState on a device wrapper with any [cbData] other
    than [sizeof(DIJOYSTATE)]: when the real device succeeds, the call
    returns its result code and the memory is the one the real device
    left, byte for byte. *)
Theorem GetDeviceState_other_size_untouched (w : World E) a o h cbData lpvData hr e1 m1 :
  heap w !! a = Some o -> is_device o = true -> wrapped o = Real h ->
  real_GetDeviceState h cbData lpvData (genuine w) (memory w) = (hr, e1, m1) ->
  SUCCEEDED hr = true ->
  cbData <> sizeof_DIJOYSTATE ->
  exists w',
    IDirectInputDevice8_GetDeviceState (Proxy a) cbData lpvData w = Some (hr, w') /\
    memory w' = m1 /\
    (forall addr, memory w' addr = m1 addr) /\
    genuine w' = e1 /\ heap w' = heap w.
Proof.
  intros Ho Hdev Hreal Hcall Hok Hsize.
  rewrite (GetDeviceState_on_proxy w a o h) by assumption.
  rewrite Hcall, Hok. apply Z.eqb_neq in Hsize as ->. cbn [andb].
  eexists. split; [reflexivity |]. now cbn [memory genuine heap].
Qed.

(** C7. GetDeviceState on a device wrapper when the real device fails:
    the failure code is returned as it is and the memory is the one
    the real device left; the wrapper stores nothing. *)
Theorem GetDeviceState_failure_passed_on (w : World E) a o h cbData lpvData hr e1 m1 :
  heap w !! a = Some o -> is_device o = true -> wrapped o = Real h ->
  real_GetDeviceState h cbData lpvData (genuine w) (memory w) = (hr, e1, m1) ->
  SUCCEEDED hr = false ->
  IDirectInputDevice8_GetDeviceState (Proxy a) cbData lpvData w =
    Some (hr, mkWorld e1 m1 (heap w) (g_pfnDirectInput8Create w)
                      (log_enabled w) (log_file w)).
Proof.
  intros Ho Hdev Hreal Hcall Hfail.
  rewrite (GetDeviceState_on_proxy w a o h) by assumption.
  now rewrite Hcall, Hfail.
Qed.

(** C10. The test on the result code is SUCCEEDED, not equality with
    S_OK: for a positive (informational) result code of the real
    device and [cbData = sizeof(DIJOYSTATE)], the call returns that
    code and [lRx] and [lRy] read zero. *)
Theorem GetDeviceState_blanks_on_any_success (w : World E) a o h lpvData hr e1 m1 :
  heap w !! a = Some o -> is_device o = true -> wrapped o = Real h ->
  real_GetDeviceState h sizeof_DIJOYSTATE lpvData (genuine w) (memory w) = (hr, e1, m1) ->
  S_OK < hr ->
  exists w',
    IDirectInputDevice8_GetDeviceState (Proxy a) sizeof_DIJOYSTATE lpvData w = Some (hr, w') /\
    memory w' = blank_rotation m1 lpvData /\
    lRx (load_DIJOYSTATE (memory w') lpvData) = 0 /\
    lRy (load_DIJOYSTATE (memory w') lpvData) = 0.
Proof.
  intros Ho Hdev Hreal Hcall Hpos.
  rewrite (GetDeviceState_on_proxy w a o h) by assumption.
  rewrite Hcall.
  assert (SUCCEEDED hr = true) as -> by (apply Z.leb_le; unfold S_OK in Hpos; lia).
  rewrite Z.eqb_refl. cbn [andb].
  eexists. split; [reflexivity |]. cbn [memory].
  rewrite load_blank_rotation. now repeat split.
Qed.
End GetDeviceState.

(* the scripted device: axes 150 and -200 come back as zero *)
Lemma GetDeviceState_blanks_rotation_witness :
  exists w',
    IDirectInputDevice8_GetDeviceState (Proxy 2) 80 1000 (Double.world Double.sixdof)
      = Some (S_OK, w') /\
    lRx (load_DIJOYSTATE (memory w') 1000) = 0 /\
    lRy (load_DIJOYSTATE (memory w') 1000) = 0 /\
    load_DIJOYSTATE (memory w') 1000
      = without_rotation (load_DIJOYSTATE (Double.fill Double.zeroes 1000) 1000) /\
    (forall addr, ~ (1000 + offsetof_lRx <= addr < 1000 + offsetof_lRx + 8) ->
                  memory w' addr = Double.fill Double.zeroes 1000 addr) /\
    genuine w' = Double.sixdof /\
    heap w' = heap (Double.world Double.sixdof).
Proof.
  apply (GetDeviceState_blanks_rotation (Double.world Double.sixdof)
           2%positive (DeviceA (Real 20)) 20%positive 80 1000 S_OK
           Double.sixdof (Double.fill Double.zeroes 1000));
    reflexivity.
Defined.

Lemma GetDeviceState_other_size_untouched_witness :
  exists w',
    IDirectInputDevice8_GetDeviceState (Proxy 2) sizeof_DIJOYSTATE2 1000
        (Double.world Double.sixdof) = Some (S_OK, w') /\
    memory w' = Double.fill Double.zeroes 1000 /\
    (forall addr, memory w' addr = Double.fill Double.zeroes 1000 addr) /\
    genuine w' = Double.sixdof /\
    heap w' = heap (Double.world Double.sixdof).
Proof.
  apply (GetDeviceState_other_size_untouched (Double.world Double.sixdof)
           2%positive (DeviceA (Real 20)) 20%positive sizeof_DIJOYSTATE2 1000 S_OK
           Double.sixdof (Double.fill Double.zeroes 1000));
    try reflexivity.
  discriminate.
Defined.

Lemma GetDeviceState_failure_passed_on_witness :
  IDirectInputDevice8_GetDeviceState (Proxy 2) 80 1000
      (Double.world (Double.polling DIERR_INPUTLOST)) =
    Some (DIERR_INPUTLOST, Double.world (Double.polling DIERR_INPUTLOST)).
Proof.
  apply (GetDeviceState_failure_passed_on (Double.world (Double.polling DIERR_INPUTLOST))
           2%positive (DeviceA (Real 20)) 20%positive 80 1000 DIERR_INPUTLOST
           (Double.polling DIERR_INPUTLOST) Double.zeroes);
    reflexivity.
Defined.

Lemma GetDeviceState_blanks_on_any_success_witness :
  exists w',
    IDirectInputDevice8_GetDeviceState (Proxy 2) sizeof_DIJOYSTATE 1000
        (Double.world (Double.polling S_FALSE)) = Some (S_FALSE, w') /\
    memory w' = blank_rotation (Double.fill Double.zeroes 1000) 1000 /\
    lRx (load_DIJOYSTATE (memory w') 1000) = 0 /\
    lRy (load_DIJOYSTATE (memory w') 1000) = 0.
Proof.
  apply (GetDeviceState_blanks_on_any_success (Double.world (Double.polling S_FALSE))
           2%positive (DeviceA (Real 20)) 20%positive 1000 S_FALSE
           (Double.polling S_FALSE) (Double.fill Double.zeroes 1000));
    reflexivity.
Defined.

(** ** Device creation through a factory wrapper *)

Lemma fresh_is_free (hp : gmap positive Object) : hp !! fresh (dom hp) = None.
Proof. apply not_elem_of_dom, is_fresh. Qed.

(* unfold one layer of the state-passing combinators *)
Ltac step :=
  cbv beta iota zeta delta
      [bind ret undefined sys through through_mem write_LONG operator_new
       operator_delete Log class_of set_genuine set_memory set_heap set_log_file
       set_g_pfnDirectInput8Create genuine memory heap g_pfnDirectInput8Create
       log_enabled log_file fst snd].

Section CreateDevice.
Context `{Genuine E}.

Lemma first_person_sixdof_test dwDevType :
  (GET_DIDEVICE_TYPE dwDevType =? DI8DEVTYPE_1STPERSON)
    && (GET_DIDEVICE_SUBTYPE dwDevType =? DI8DEVTYPE1STPERSON_SIXDOF) = true
  <-> first_person_sixdof dwDevType.
Proof.
  unfold first_person_sixdof. rewrite andb_true_iff, !Z.eqb_eq. reflexivity.
Qed.

(* what CreateDevice on a live factory wrapper evaluates to once the
   real factory has produced a device *)
Lemma CreateDevice_on_proxy (w : World E) a o h rguid lplp pUnk hr d e1 hr_info didi e2 :
  heap w !! a = Some o -> is_factory o = true -> wrapped o = Real h ->
  real_CreateDevice h rguid nullptr pUnk (genuine w) = (hr, Real d, e1) ->
  SUCCEEDED hr = true ->
  real_GetDeviceInfo d (sizeof_DIDEVICEINSTANCE_of o) e1 = (hr_info, didi, e2) ->
  exists l,
    IDirectInput8_CreateDevice (Proxy a) rguid lplp pUnk w =
      if SUCCEEDED hr_info
         && ((GET_DIDEVICE_TYPE (dwDevType didi) =? DI8DEVTYPE_1STPERSON)
             && (GET_DIDEVICE_SUBTYPE (dwDevType didi) =? DI8DEVTYPE1STPERSON_SIXDOF))
      then Some ((hr, Proxy (fresh (dom (heap w)))),
                 mkWorld e2 (memory w)
                         (<[fresh (dom (heap w)) := device_of o (Real d)]> (heap w))
                         (g_pfnDirectInput8Create w) (log_enabled w) l)
      else Some ((hr, Real d),
                 mkWorld e2 (memory w) (heap w)
                         (g_pfnDirectInput8Create w) (log_enabled w) l).
Proof.
  intros Ho Hfac Hreal Hcreate Hok Hinfo.
  destruct w as [e m hp pfn enabled lf]. cbn in Ho, Hcreate.
  destruct o as [p | p | p | p]; cbn in Hfac, Hreal, Hinfo; try discriminate; subst p.
  - unfold IDirectInput8_CreateDevice, WrapperIDirectInput8A.CreateDevice,
      WrapperIDirectInput8A.m_pRealDInput, WrapperIDirectInputDevice8A.new.
    do 6 (step; rewrite ?Ho, ?Hcreate, ?Hok, ?Hinfo).
    destruct (SUCCEEDED hr_info); step;
      [destruct (_ && _) |]; step; eexists; reflexivity.
  - unfold IDirectInput8_CreateDevice, WrapperIDirectInput8W.CreateDevice,
      WrapperIDirectInput8W.m_pRealDInput, WrapperIDirectInputDevice8W.new.
    do 6 (step; rewrite ?Ho, ?Hcreate, ?Hok, ?Hinfo).
    destruct (SUCCEEDED hr_info); step;
      [destruct (_ && _) |]; step; eexists; reflexivity.
Qed.

(** C2. CreateDevice on a factory wrapper (ANSI or Unicode), when the
    real factory succeeds with [hr] and device [d] and the device
    answers GetDeviceInfo: for a first-person device of the six
    degrees of freedom subtype the output pointer is a wrapper object
    that did not exist before the call, of the device class of the
    same text encoding, wrapping [d]; for every other type or subtype
    the output pointer is [d] itself and no object is allocated; in
    both cases [hr] is returned. *)
Theorem CreateDevice_wraps_first_person_sixdof
    (w : World E) a o h rguid lplp pUnk hr d e1 hr_info didi e2 :
  heap w !! a = Some o -> is_factory o = true -> wrapped o = Real h ->
  real_CreateDevice h rguid nullptr pUnk (genuine w) = (hr, Real d, e1) ->
  SUCCEEDED hr = true ->
  real_GetDeviceInfo d (sizeof_DIDEVICEINSTANCE_of o) e1 = (hr_info, didi, e2) ->
  SUCCEEDED hr_info = true ->
  (first_person_sixdof (dwDevType didi) ->
     exists p w',
       IDirectInput8_CreateDevice (Proxy a) rguid lplp pUnk w = Some ((hr, Proxy p), w') /\
       heap w !! p = None /\
       heap w' = <[p := device_of o (Real d)]> (heap w) /\
       heap w' !! p = Some (device_of o (Real d)) /\
       genuine w' = e2) /\
  (~ first_person_sixdof (dwDevType didi) ->
     exists w',
       IDirectInput8_CreateDevice (Proxy a) rguid lplp pUnk w = Some ((hr, Real d), w') /\
       heap w' = heap w /\
       genuine w' = e2).
Proof.
  intros Ho Hfac Hreal Hcreate Hok Hinfo Hok_info.
  destruct (CreateDevice_on_proxy w a o h rguid lplp pUnk hr d e1 hr_info didi e2)
    as [l Hrun]; try assumption.
  rewrite Hok_info in Hrun. cbn [andb] in Hrun.
  split; intros Htype.
  - apply first_person_sixdof_test in Htype. rewrite Htype in Hrun.
    eexists _, _. split; [exact Hrun |]. cbn [heap genuine].
    split; [apply fresh_is_free |]. split; [reflexivity |].
    split; [apply lookup_insert_eq | reflexivity].
  - rewrite <- first_person_sixdof_test in Htype.
    apply not_true_is_false in Htype. rewrite Htype in Hrun.
    eexists. split; [exact Hrun |]. now cbn [heap genuine].
Qed.

(** C5. CreateDevice on a factory wrapper when the real factory
    succeeds with [hr] and device [d] but the device fails
    GetDeviceInfo: the call returns the successful [hr] and the output
    pointer is [d] itself; no wrapper object is allocated. *)
Theorem CreateDevice_fails_open
    (w : World E) a o h rguid lplp pUnk hr d e1 hr_info didi e2 :
  heap w !! a = Some o -> is_factory o = true -> wrapped o = Real h ->
  real_CreateDevice h rguid nullptr pUnk (genuine w) = (hr, Real d, e1) ->
  SUCCEEDED hr = true ->
  real_GetDeviceInfo d (sizeof_DIDEVICEINSTANCE_of o) e1 = (hr_info, didi, e2) ->
  SUCCEEDED hr_info = false ->
  exists w',
    IDirectInput8_CreateDevice (Proxy a) rguid lplp pUnk w = Some ((hr, Real d), w') /\
    SUCCEEDED hr = true /\
    heap w' = heap w /\
    genuine w' = e2.
Proof.
  intros Ho Hfac Hreal Hcreate Hok Hinfo Hfail.
  destruct (CreateDevice_on_proxy w a o h rguid lplp pUnk hr d e1 hr_info didi e2)
    as [l Hrun]; try assumption.
  rewrite Hfail in Hrun. cbn [andb] in Hrun.
  eexists. split; [exact Hrun |]. now cbn [heap genuine].
Qed.
End CreateDevice.

(* the scripted first-person six-degrees-of-freedom device is wrapped,
   the scripted gamepad is not *)
Lemma CreateDevice_wraps_first_person_sixdof_witness :
  (exists p w',
     IDirectInput8_CreateDevice (Proxy 1) GUID_Joystick nullptr nullptr
         (Double.world Double.sixdof) = Some ((S_OK, Proxy p), w') /\
     heap (Double.world Double.sixdof) !! p = None /\
     heap w' = <[p := DeviceA (Real 20)]> (heap (Double.world Double.sixdof)) /\
     heap w' !! p = Some (DeviceA (Real 20)) /\
     genuine w' = Double.with_device Double.sixdof) /\
  (exists w',
     IDirectInput8_CreateDevice (Proxy 1) GUID_Joystick nullptr nullptr
         (Double.world Double.gamepad) = Some ((S_OK, Real 20), w') /\
     heap w' = heap (Double.world Double.gamepad) /\
     genuine w' = Double.with_device Double.gamepad).
Proof.
  split.
  - destruct (CreateDevice_wraps_first_person_sixdof (Double.world Double.sixdof)
             1%positive (DInputA (Real 10)) 10%positive GUID_Joystick nullptr nullptr
             S_OK 20%positive (Double.with_device Double.sixdof) S_OK
             {| dwDevType := 0x00010318; tszProductName := "Wireless Controller" |}
             (Double.with_device Double.sixdof)) as [Hwrapped _]; try reflexivity.
    apply Hwrapped. split; reflexivity.
  - destruct (CreateDevice_wraps_first_person_sixdof (Double.world Double.gamepad)
             1%positive (DInputA (Real 10)) 10%positive GUID_Joystick nullptr nullptr
             S_OK 20%positive (Double.with_device Double.gamepad) S_OK
             {| dwDevType := 0x00010215; tszProductName := "Wireless Controller" |}
             (Double.with_device Double.gamepad)) as [_ Hplain]; try reflexivity.
    apply Hplain. intros [Htype _]. discriminate Htype.
Defined.

Lemma CreateDevice_fails_open_witness :
  exists w',
    IDirectInput8_CreateDevice (Proxy 1) GUID_Joystick nullptr nullptr
        (Double.world Double.mute) = Some ((S_OK, Real 20), w') /\
    SUCCEEDED S_OK = true /\
    heap w' = heap (Double.world Double.mute) /\
    genuine w' = Double.with_device Double.mute.
Proof.
  apply (CreateDevice_fails_open (Double.world Double.mute)
           1%positive (DInputA (Real 10)) 10%positive GUID_Joystick nullptr nullptr
           S_OK 20%positive (Double.with_device Double.mute) E_FAIL
           {| dwDevType := 0x00010318; tszProductName := "Wireless Controller" |}
           (Double.with_device Double.mute));
    reflexivity.
Defined.

(** ** IUnknown on a wrapper object *)

Lemma IsEqualGUID_true a b : IsEqualGUID a b = true <-> a = b.
Proof. unfold IsEqualGUID. apply bool_decide_eq_true. Qed.

Lemma IsEqualGUID_false a b : IsEqualGUID a b = false <-> a <> b.
Proof. unfold IsEqualGUID. apply bool_decide_eq_false. Qed.

(* unfold the IUnknown methods of the four wrapper classes *)
Ltac unfold_IUnknown :=
  unfold IUnknown_AddRef, IUnknown_Release, IUnknown_QueryInterface,
    WrapperIDirectInputDevice8A.QueryInterface, WrapperIDirectInput8A.QueryInterface,
    WrapperIDirectInputDevice8W.QueryInterface, WrapperIDirectInput8W.QueryInterface,
    WrapperIDirectInputDevice8A.AddRef, WrapperIDirectInput8A.AddRef,
    WrapperIDirectInputDevice8W.AddRef, WrapperIDirectInput8W.AddRef,
    WrapperIDirectInputDevice8A.Release, WrapperIDirectInput8A.Release,
    WrapperIDirectInputDevice8W.Release, WrapperIDirectInput8W.Release,
    WrapperIDirectInputDevice8A.m_pRealDevice, WrapperIDirectInput8A.m_pRealDInput,
    WrapperIDirectInputDevice8W.m_pRealDevice, WrapperIDirectInput8W.m_pRealDInput.

Section IUnknown.
Context `{Genuine E}.

Lemma AddRef_on_proxy (w : World E) a o h :
  heap w !! a = Some o -> wrapped o = Real h ->
  IUnknown_AddRef (Proxy a) w =
    Some (fst (real_AddRef h (genuine w)), set_genuine (snd (real_AddRef h (genuine w))) w).
Proof.
  intros Ho Hreal. destruct w as [e m hp pfn enabled lf]. cbn in Ho.
  destruct o as [p | p | p | p]; cbn in Hreal; subst p;
    unfold_IUnknown; do 3 (step; rewrite ?Ho);
    destruct (real_AddRef h _); reflexivity.
Qed.

Lemma Release_on_proxy (w : World E) a o h :
  heap w !! a = Some o -> wrapped o = Real h ->
  IUnknown_Release (Proxy a) w =
    Some (fst (real_Release h (genuine w)),
          set_heap (if fst (real_Release h (genuine w)) =? 0
                    then delete a (heap w) else heap w)
                   (set_genuine (snd (real_Release h (genuine w))) w)).
Proof.
  intros Ho Hreal. destruct w as [e m hp pfn enabled lf]. cbn in Ho.
  destruct o as [p | p | p | p]; cbn in Hreal; subst p;
    unfold_IUnknown; do 3 (step; rewrite ?Ho);
    destruct (real_Release h _) as [uRet e']; step;
    destruct (uRet =? 0); reflexivity.
Qed.

Lemma QueryInterface_own (w : World E) a o h riid ppvObj :
  heap w !! a = Some o -> wrapped o = Real h ->
  riid = IID_IUnknown \/ riid = IID_of o ->
  IUnknown_QueryInterface (Proxy a) riid ppvObj w =
    Some ((S_OK, Proxy a), set_genuine (snd (real_AddRef h (genuine w))) w).
Proof.
  intros Ho Hreal Hown.
  assert (Hor : IsEqualGUID riid IID_IUnknown || IsEqualGUID riid (IID_of o) = true).
  { apply orb_true_iff. rewrite !IsEqualGUID_true. exact Hown. }
  destruct w as [e m hp pfn enabled lf]. cbn in Ho.
  destruct o as [p | p | p | p]; cbn in Hreal, Hor; subst p;
    unfold_IUnknown; step; rewrite Ho; step; rewrite Hor;
    do 2 (step; rewrite ?Ho);
    destruct (real_AddRef h _); reflexivity.
Qed.

Lemma QueryInterface_other (w : World E) a o h riid ppvObj :
  heap w !! a = Some o -> wrapped o = Real h ->
  riid <> IID_IUnknown -> riid <> IID_of o ->
  IUnknown_QueryInterface (Proxy a) riid ppvObj w =
    Some (fst (real_QueryInterface h riid ppvObj (genuine w)),
          set_genuine (snd (real_QueryInterface h riid ppvObj (genuine w))) w).
Proof.
  intros Ho Hreal Hunk Hown.
  assert (Hor : IsEqualGUID riid IID_IUnknown || IsEqualGUID riid (IID_of o) = false).
  { apply orb_false_iff. rewrite !IsEqualGUID_false. now split. }
  destruct w as [e m hp pfn enabled lf]. cbn in Ho.
  destruct o as [p | p | p | p]; cbn in Hreal, Hor; subst p;
    unfold_IUnknown; step; rewrite Ho; step; rewrite Hor;
    do 2 (step; rewrite ?Ho);
    destruct (real_QueryInterface h riid ppvObj _) as [[hr out] e']; reflexivity.
Qed.

(** C9. QueryInterface on a wrapper object of any of the four
    classes: asked for IUnknown or for the interface of its class it
    stores the wrapper itself in the output pointer, makes the one
    AddRef call of the wrapper (which the real object receives) and
    returns S_OK; asked for any other interface it hands the call to
    the real object and returns that object's result code and output
    pointer as they are. *)
Theorem QueryInterface_answers_own_interface (w : World E) a o h riid ppvObj :
  heap w !! a = Some o -> wrapped o = Real h ->
  (riid = IID_IUnknown \/ riid = IID_of o ->
     exists n w',
       IUnknown_AddRef (Proxy a) w = Some (n, w') /\
       w' = set_genuine (snd (real_AddRef h (genuine w))) w /\
       IUnknown_QueryInterface (Proxy a) riid ppvObj w = Some ((S_OK, Proxy a), w')) /\
  (riid <> IID_IUnknown -> riid <> IID_of o ->
     forall hr out e',
       real_QueryInterface h riid ppvObj (genuine w) = (hr, out, e') ->
       IUnknown_QueryInterface (Proxy a) riid ppvObj w = Some ((hr, out), set_genuine e' w)).
Proof.
  intros Ho Hreal. split.
  - intros Hown. eexists _, _.
    split; [apply (AddRef_on_proxy w a o h); assumption |].
    split; [reflexivity |].
    apply (QueryInterface_own w a o h); assumption.
  - intros Hunk Hother hr out e' Hcall.
    rewrite (QueryInterface_other w a o h) by assumption.
    now rewrite Hcall.
Qed.
End IUnknown.

(* the scripted device wrapper answers for IDirectInputDevice8A itself
   and passes a query for IDirectInputDevice7A on *)
Lemma QueryInterface_answers_own_interface_witness :
  (exists n w',
     IUnknown_AddRef (Proxy 2) (Double.world Double.sixdof) = Some (n, w') /\
     w' = set_genuine (snd (Double.add_ref 20 Double.sixdof)) (Double.world Double.sixdof) /\
     IUnknown_QueryInterface (Proxy 2) IID_IDirectInputDevice8A nullptr
         (Double.world Double.sixdof) = Some ((S_OK, Proxy 2), w')) /\
  IUnknown_QueryInterface (Proxy 2) IID_IDirectInputDevice7A nullptr
      (Double.world Double.sixdof) =
    Some ((S_OK, Real 20),
          set_genuine (snd (Double.add_ref 20 Double.sixdof)) (Double.world Double.sixdof)).
Proof.
  destruct (QueryInterface_answers_own_interface (Double.world Double.sixdof)
              2%positive (DeviceA (Real 20)) 20%positive IID_IDirectInputDevice8A nullptr)
    as [Hown _]; try reflexivity.
  destruct (QueryInterface_answers_own_interface (Double.world Double.sixdof)
              2%positive (DeviceA (Real 20)) 20%positive IID_IDirectInputDevice7A nullptr)
    as [_ Hother]; try reflexivity.
  split.
  - apply Hown. right. reflexivity.
  - apply Hother; [discriminate | discriminate | reflexivity].
Defined.

(** ** Lifetime of a wrapper object *)

Section Lifetime.
Context `{Genuine E}.

Lemma perform_on_live_proxy (count : E -> Z) (w : World E) a o h c :
  counts_references h count ->
  heap w !! a = Some o -> wrapped o = Real h -> 0 < count (genuine w) ->
  on_proxy a o c ->
  exists w',
    perform c w = Some (tt, w') /\
    (heap w' !! a = Some o /\ 0 < count (genuine w') \/
     heap w' !! a = None /\ count (genuine w') = 0).
Proof.
  intros [Hadd Hrel] Ho Hreal Hpos Hc.
  destruct c as [p | p | p riid]; cbn in Hc.
  - subst p. unfold perform, bind. rewrite (AddRef_on_proxy w a o h) by assumption.
    eexists. split; [reflexivity |]. left. cbn. split; [assumption |].
    destruct (Hadd (genuine w)) as [_ ->]. lia.
  - subst p. unfold perform, bind. rewrite (Release_on_proxy w a o h) by assumption.
    eexists. split; [reflexivity |]. cbn.
    destruct (Hrel (genuine w) Hpos) as [-> ->].
    destruct (Z.eqb_spec (count (genuine w) - 1) 0) as [Hzero | Hmore].
    + right. split; [apply lookup_delete_eq | assumption].
    + left. split; [assumption | lia].
  - destruct Hc as [-> Hown]. unfold perform, bind.
    rewrite (QueryInterface_own w a o h) by assumption.
    eexists. split; [reflexivity |]. left. cbn. split; [assumption |].
    destruct (Hadd (genuine w)) as [_ ->]. lia.
Qed.

Lemma perform_on_deleted_proxy (w : World E) a o c :
  heap w !! a = None -> on_proxy a o c -> perform c w = None.
Proof.
  intros Hgone Hc.
  destruct c as [p | p | p riid]; cbn in Hc; [| | destruct Hc as [Hc _]]; subst p;
    unfold perform, IUnknown_AddRef, IUnknown_Release, IUnknown_QueryInterface,
      bind, class_of; now rewrite Hgone.
Qed.

Lemma perform_all_on_proxy (count : E -> Z) a o h cs :
  counts_references h count -> wrapped o = Real h ->
  Forall (on_proxy a o) cs ->
  forall w : World E,
    heap w !! a = Some o -> 0 < count (genuine w) ->
    match perform_all cs w with
    | Some (_, w') => in_lockstep count a o w'
    | None =>
        exists cs1 c cs2 w1,
          cs = cs1 ++ c :: cs2 /\
          perform_all cs1 w = Some (tt, w1) /\
          heap w1 !! a = None /\ count (genuine w1) = 0
    end.
Proof.
  intros Hcount Hreal Hcs.
  induction Hcs as [| c cs Hc Hcs IH]; intros w Ho Hpos.
  - cbn. left. now split.
  - destruct (perform_on_live_proxy count w a o h c) as (w1 & Hrun & Hw1); try assumption.
    cbn [perform_all]. unfold bind at 1. rewrite Hrun.
    destruct Hw1 as [[Ho1 Hpos1] | [Hgone Hzero]].
    + specialize (IH w1 Ho1 Hpos1).
      destruct (perform_all cs w1) as [[[] w'] |]; [exact IH |].
      destruct IH as (cs1 & c' & cs2 & w2 & -> & Hrun1 & Hgone & Hzero).
      exists (c :: cs1), c', cs2, w2. repeat split; try assumption.
      cbn [perform_all]. unfold bind at 1. now rewrite Hrun.
    + destruct Hcs as [| c' cs' Hc' Hcs'].
      * cbn. right. now split.
      * cbn [perform_all]. unfold bind at 1.
        rewrite (perform_on_deleted_proxy w1 a o c') by assumption.
        exists [c], c', cs', w1. repeat split; try assumption.
        cbn [perform_all]. unfold bind at 1. now rewrite Hrun.
Qed.

(** C3, as the code has it.  Release on a wrapper object of any of the
    four classes makes one Release call on the real object, returns
    the count that call returned and deletes the wrapper exactly when
    that count is zero; nothing else of the real object is read.
    Hence, for a real object that counts its references and as long
    as every call is made on the wrapper (AddRef, Release, or a
    QueryInterface the wrapper answers itself), the wrapper exists
    exactly while the count is positive: it is deleted by the call
    that brings the count to zero, and the only calls without a
    defined result are those made after that. *)
Theorem Release_deletes_on_zero (w : World E) a o h :
  heap w !! a = Some o -> wrapped o = Real h ->
  (exists uRet e' w',
     real_Release h (genuine w) = (uRet, e') /\
     IUnknown_Release (Proxy a) w = Some (uRet, w') /\
     genuine w' = e' /\
     (uRet = 0 -> heap w' = delete a (heap w) /\ heap w' !! a = None) /\
     (uRet <> 0 -> heap w' = heap w /\ heap w' !! a = Some o)) /\
  (forall count cs,
     counts_references h count -> 0 < count (genuine w) ->
     Forall (on_proxy a o) cs ->
     match perform_all cs w with
     | Some (_, w') => in_lockstep count a o w'
     | None =>
         exists cs1 c cs2 w1,
           cs = cs1 ++ c :: cs2 /\
           perform_all cs1 w = Some (tt, w1) /\
           heap w1 !! a = None /\ count (genuine w1) = 0
     end).
Proof.
  intros Ho Hreal. split.
  - destruct (real_Release h (genuine w)) as [uRet e'] eqn:Hcall.
    exists uRet, e'. eexists. split; [reflexivity |].
    rewrite (Release_on_proxy w a o h), Hcall by assumption.
    split; [reflexivity |]. cbn [fst snd set_heap set_genuine genuine heap].
    split; [reflexivity |]. split.
    + intros ->. cbn. split; [reflexivity | apply lookup_delete_eq].
    + intros Hne. apply Z.eqb_neq in Hne as ->. now split.
  - intros count cs Hcount Hpos Hcs.
    now apply (perform_all_on_proxy count a o h cs).
Qed.
End Lifetime.

Lemma Double_counts_references h : counts_references h (Double.count h).
Proof.
  assert (Hset : forall r s, Double.count h (Double.with_refs r s) = default 0 (r !! h))
    by reflexivity.
  split; intros s.
  - cbn. split; [reflexivity |].
    now rewrite Hset, lookup_insert_eq.
  - intros Hpos. cbn. split; [reflexivity |]. rewrite Hset.
    destruct (Double.count h s - 1 =? 0) eqn:Hlast.
    + rewrite lookup_delete_eq. apply Z.eqb_eq in Hlast. now rewrite Hlast.
    + now rewrite lookup_insert_eq.
Qed.

(* the scripted device wrapper, holding one reference: AddRef, Release,
   Release deletes it with the second Release *)
Lemma Release_deletes_on_zero_witness :
  (exists uRet e' w',
     Double.release 20 Double.sixdof = (uRet, e') /\
     IUnknown_Release (Proxy 2) (Double.world Double.sixdof) = Some (uRet, w') /\
     genuine w' = e' /\
     (uRet = 0 -> heap w' = delete 2%positive (heap (Double.world Double.sixdof)) /\
                  heap w' !! 2%positive = None) /\
     (uRet <> 0 -> heap w' = heap (Double.world Double.sixdof) /\
                   heap w' !! 2%positive = Some (DeviceA (Real 20)))) /\
  match perform_all [AddRef_on (Proxy 2); Release_on (Proxy 2); Release_on (Proxy 2)]
                    (Double.world Double.sixdof) with
  | Some (_, w') => in_lockstep (Double.count 20) 2 (DeviceA (Real 20)) w'
  | None =>
      exists cs1 c cs2 w1,
        [AddRef_on (Proxy 2); Release_on (Proxy 2); Release_on (Proxy 2)] = cs1 ++ c :: cs2 /\
        perform_all cs1 (Double.world Double.sixdof) = Some (tt, w1) /\
        heap w1 !! 2%positive = None /\ Double.count 20 (genuine w1) = 0
  end.
Proof.
  destruct (Release_deletes_on_zero (Double.world Double.sixdof)
              2%positive (DeviceA (Real 20)) 20%positive) as [Hone Hall];
    try reflexivity.
  split; [exact Hone |].
  apply Hall.
  - apply Double_counts_references.
  - reflexivity.
  - repeat constructor.
Defined.

(** C3, as stated, fails: the wrapper can outlive the real object.  A
    game asks the ANSI device wrapper for the Unicode interface of the
    device, which the wrapper does not answer itself; the query goes to
    the real object, which hands out a pointer to itself and counts a
    second reference.  The game releases the wrapper (the real Release
    returns 1, the wrapper stays) and then the pointer it was given (the
    count reaches 0, the real object is gone).  The wrapper is still
    allocated. *)
Lemma proxy_outlives_real_object :
  exists w',
    (let* '(hr, p) := IUnknown_QueryInterface (Proxy 2) IID_IDirectInputDevice8W nullptr in
     let* n1 := IUnknown_Release (Proxy 2) in
     let* n2 := IUnknown_Release p in
     ret (hr, p, n1, n2)) (Double.world Double.sixdof)
      = Some ((S_OK, Real 20, 1, 0), w') /\
    Double.refs (genuine w') !! 20%positive = None /\
    Double.count 20 (genuine w') = 0 /\
    heap w' !! 2%positive = Some (DeviceA (Real 20)) /\
    ~ in_lockstep (Double.count 20) 2 (DeviceA (Real 20)) w'.
Proof.
  eexists. split; [vm_compute; reflexivity |].
  split; [reflexivity |]. split; [reflexivity |]. split; [reflexivity |].
  intros [[_ Hpos] | [Hgone _]].
  - vm_compute in Hpos. discriminate Hpos.
  - vm_compute in Hgone. discriminate Hgone.
Qed.

(** ** The exported DirectInput8Create *)

Section DirectInput8Create.
Context `{Genuine E}.

Lemma resolve_cached (w : World E) pfn :
  g_pfnDirectInput8Create w = Some pfn ->
  resolve_g_pfnDirectInput8Create w = Some (Some pfn, w).
Proof. intros Hpfn. unfold resolve_g_pfnDirectInput8Create. now rewrite Hpfn. Qed.

Lemma resolve_no_dll (w : World E) e1 :
  g_pfnDirectInput8Create w = None ->
  LoadLibraryA (system_dinput8 (genuine w)) (genuine w) = (None, e1) ->
  resolve_g_pfnDirectInput8Create w = Some (None, set_genuine e1 w).
Proof.
  intros Hpfn Hload. unfold resolve_g_pfnDirectInput8Create. rewrite Hpfn.
  destruct w as [e m hp pfn enabled lf]. unfold system_dinput8 in Hload. cbn in Hload.
  step. rewrite Hload. reflexivity.
Qed.

Lemma resolve_loaded (w : World E) hMod e1 pfn e2 :
  g_pfnDirectInput8Create w = None ->
  LoadLibraryA (system_dinput8 (genuine w)) (genuine w) = (Some hMod, e1) ->
  GetProcAddress hMod "DirectInput8Create" e1 = (pfn, e2) ->
  resolve_g_pfnDirectInput8Create w =
    Some (pfn, set_g_pfnDirectInput8Create pfn (set_genuine e2 w)).
Proof.
  intros Hpfn Hload Hproc. unfold resolve_g_pfnDirectInput8Create. rewrite Hpfn.
  destruct w as [e m hp pfn0 enabled lf]. unfold system_dinput8 in Hload. cbn in Hload.
  step. rewrite Hload. step. rewrite Hproc. reflexivity.
Qed.

(* once the pointer is known the export always returns, and leaves the
   cached pointer alone *)
Lemma DirectInput8Create_through_returns (w : World E) pfn hinst dwVersion riid ppvOut punkOuter :
  exists r w',
    DirectInput8Create_through pfn hinst dwVersion riid ppvOut punkOuter w = Some (r, w') /\
    g_pfnDirectInput8Create w' = g_pfnDirectInput8Create w.
Proof.
  destruct w as [e m hp pfn0 enabled lf].
  unfold DirectInput8Create_through, WrapperIDirectInput8A.new, WrapperIDirectInput8W.new.
  destruct (IsEqualGUID riid IID_IDirectInput8A); [| destruct (IsEqualGUID riid IID_IDirectInput8W)];
    step;
    destruct (call_DirectInput8Create pfn hinst dwVersion _ _ punkOuter e) as [[hr out] e'];
    try destruct (SUCCEEDED hr); step; eexists _, _; split; reflexivity.
Qed.

Lemma DirectInput8Create_through_unknown
    (w : World E) pfn hinst dwVersion riid ppvOut punkOuter hr out e' :
  riid <> IID_IDirectInput8A -> riid <> IID_IDirectInput8W ->
  call_DirectInput8Create pfn hinst dwVersion riid ppvOut punkOuter (genuine w) = (hr, out, e') ->
  exists l,
    DirectInput8Create_through pfn hinst dwVersion riid ppvOut punkOuter w =
      Some ((hr, out), mkWorld e' (memory w) (heap w) (g_pfnDirectInput8Create w)
                               (log_enabled w) l).
Proof.
  intros HA HW Hcall.
  apply IsEqualGUID_false in HA, HW.
  destruct w as [e m hp pfn0 enabled lf]. cbn in Hcall.
  unfold DirectInput8Create_through. rewrite HA, HW.
  step. rewrite Hcall. eexists. reflexivity.
Qed.

(** C6. DirectInput8Create asked for an interface other than
    IDirectInput8A and IDirectInput8W, with the genuine creation
    function at hand (cached, or loaded by this very call): the
    genuine function is called with the caller's own arguments and
    output pointer; its result code and the output pointer as it left
    it are what the caller gets, and no wrapper object is allocated. *)
Theorem DirectInput8Create_forwards_unknown_interface
    (w : World E) hinst dwVersion riid ppvOut punkOuter pfn e1 hr out e' :
  riid <> IID_IDirectInput8A -> riid <> IID_IDirectInput8W ->
  genuine_function_at_hand w pfn e1 ->
  call_DirectInput8Create pfn hinst dwVersion riid ppvOut punkOuter e1 = (hr, out, e') ->
  exists w',
    DirectInput8Create hinst dwVersion riid ppvOut punkOuter w = Some ((hr, out), w') /\
    genuine w' = e' /\
    heap w' = heap w /\
    memory w' = memory w /\
    g_pfnDirectInput8Create w' = Some pfn.
Proof.
  intros HA HW Hhand Hcall. unfold DirectInput8Create, bind.
  destruct Hhand as [[Hpfn ->] | (Hpfn & hMod & e0 & Hload & Hproc)].
  - rewrite (resolve_cached w pfn Hpfn).
    destruct (DirectInput8Create_through_unknown w pfn hinst dwVersion riid ppvOut
                punkOuter hr out e' HA HW Hcall) as [l ->].
    eexists. split; [reflexivity |]. now cbn.
  - rewrite (resolve_loaded w hMod e0 (Some pfn) e1 Hpfn Hload Hproc).
    destruct (DirectInput8Create_through_unknown
                (set_g_pfnDirectInput8Create (Some pfn) (set_genuine e1 w))
                pfn hinst dwVersion riid ppvOut punkOuter hr out e' HA HW Hcall) as [l ->].
    eexists. split; [reflexivity |]. now cbn.
Qed.
End DirectInput8Create.

Lemma DirectInput8Create_forwards_unknown_interface_witness :
  exists w',
    DirectInput8Create 0 0x0800 IID_IDirectInput7A nullptr nullptr
        (Double.fresh_world Double.sixdof) = Some ((S_OK, Real 10), w') /\
    genuine w' = snd (Double.create 2%positive 0 0x0800 IID_IDirectInput7A nullptr nullptr
                        (snd (Double.load_library "" Double.sixdof))) /\
    heap w' = ∅ /\
    memory w' = Double.zeroes /\
    g_pfnDirectInput8Create w' = Some 2%positive.
Proof.
  apply (DirectInput8Create_forwards_unknown_interface (Double.fresh_world Double.sixdof)
           0 0x0800 IID_IDirectInput7A nullptr nullptr 2%positive
           (snd (Double.load_library "" Double.sixdof)) S_OK (Real 10)).
  - discriminate.
  - discriminate.
  - right. split; [reflexivity |].
    exists 1%positive, (snd (Double.load_library "" Double.sixdof)).
    split; reflexivity.
  - reflexivity.
Defined.

Section LoadFailure.
Context `{Genuine E}.

(** C8. DirectInput8Create with [g_pfnDirectInput8Create] not yet set.
    If the library cannot be loaded, or is loaded but does not export
    DirectInput8Create, the call returns E_FAIL at once: the output
    pointer, the wrapper heap, the memory and the log are as before,
    only the loader has been called, and the cached pointer is still
    unset, so the next call enters the same block again.  If both
    succeed, the pointer is stored in the global and the call goes on
    through it.  A call that finds the global set goes through the
    stored pointer without calling the loader, and leaves it set. *)
Theorem DirectInput8Create_load_failure_not_cached
    (w : World E) hinst dwVersion riid ppvOut punkOuter :
  g_pfnDirectInput8Create w = None ->
  (forall e1,
     LoadLibraryA (system_dinput8 (genuine w)) (genuine w) = (None, e1) ->
     DirectInput8Create hinst dwVersion riid ppvOut punkOuter w
       = Some ((E_FAIL, ppvOut), set_genuine e1 w) /\
     g_pfnDirectInput8Create (set_genuine e1 w) = None) /\
  (forall hMod e1 e2,
     LoadLibraryA (system_dinput8 (genuine w)) (genuine w) = (Some hMod, e1) ->
     GetProcAddress hMod "DirectInput8Create" e1 = (None, e2) ->
     DirectInput8Create hinst dwVersion riid ppvOut punkOuter w
       = Some ((E_FAIL, ppvOut), set_genuine e2 w) /\
     g_pfnDirectInput8Create (set_genuine e2 w) = None) /\
  (forall hMod e1 pfn e2,
     LoadLibraryA (system_dinput8 (genuine w)) (genuine w) = (Some hMod, e1) ->
     GetProcAddress hMod "DirectInput8Create" e1 = (Some pfn, e2) ->
     exists r w',
       DirectInput8Create hinst dwVersion riid ppvOut punkOuter w = Some (r, w') /\
       DirectInput8Create hinst dwVersion riid ppvOut punkOuter w
         = DirectInput8Create_through pfn hinst dwVersion riid ppvOut punkOuter
             (set_g_pfnDirectInput8Create (Some pfn) (set_genuine e2 w)) /\
       g_pfnDirectInput8Create w' = Some pfn) /\
  (forall pfn (w2 : World E) hinst2 dwVersion2 riid2 ppvOut2 punkOuter2,
     g_pfnDirectInput8Create w2 = Some pfn ->
     exists r w2',
       DirectInput8Create hinst2 dwVersion2 riid2 ppvOut2 punkOuter2 w2 = Some (r, w2') /\
       DirectInput8Create hinst2 dwVersion2 riid2 ppvOut2 punkOuter2 w2
         = DirectInput8Create_through pfn hinst2 dwVersion2 riid2 ppvOut2 punkOuter2 w2 /\
       g_pfnDirectInput8Create w2' = Some pfn).
Proof.
  intros Hpfn. repeat split.
  - unfold DirectInput8Create, bind. now rewrite (resolve_no_dll w e1).
  - destruct w; assumption.
  - unfold DirectInput8Create, bind.
    rewrite (resolve_loaded w hMod e1 None e2) by assumption.
    destruct w as [e m hp pfn enabled lf]. cbn in Hpfn. now subst pfn.
  - destruct w; assumption.
  - intros hMod e1 pfn e2 Hload Hproc.
    assert (Hrun : DirectInput8Create hinst dwVersion riid ppvOut punkOuter w
                   = DirectInput8Create_through pfn hinst dwVersion riid ppvOut punkOuter
                       (set_g_pfnDirectInput8Create (Some pfn) (set_genuine e2 w))).
    { unfold DirectInput8Create, bind.
      now rewrite (resolve_loaded w hMod e1 (Some pfn) e2). }
    destruct (DirectInput8Create_through_returns
                (set_g_pfnDirectInput8Create (Some pfn) (set_genuine e2 w))
                pfn hinst dwVersion riid ppvOut punkOuter) as (r & w' & Hsome & Hkept).
    exists r, w'. rewrite Hrun. now repeat split.
  - intros pfn w2 hinst2 dwVersion2 riid2 ppvOut2 punkOuter2 Hset.
    assert (Hrun : DirectInput8Create hinst2 dwVersion2 riid2 ppvOut2 punkOuter2 w2
                   = DirectInput8Create_through pfn hinst2 dwVersion2 riid2 ppvOut2
                       punkOuter2 w2).
    { unfold DirectInput8Create, bind. now rewrite (resolve_cached w2 pfn). }
    destruct (DirectInput8Create_through_returns w2 pfn hinst2 dwVersion2 riid2 ppvOut2
                punkOuter2) as (r & w' & Hsome & Hkept).
    exists r, w'. rewrite Hrun. repeat split; [assumption | congruence].
Qed.
End LoadFailure.

(* with no dinput8.dll in the system directory two calls in a row both
   return E_FAIL, and each of them has called the loader *)
Lemma DirectInput8Create_load_failure_not_cached_witness :
  exists w1 w2,
    DirectInput8Create 0 0x0800 IID_IDirectInput8A nullptr nullptr
        (Double.fresh_world Double.no_dll) = Some ((E_FAIL, nullptr), w1) /\
    g_pfnDirectInput8Create w1 = None /\ Double.loads (genuine w1) = 1 /\
    DirectInput8Create 0 0x0800 IID_IDirectInput8A nullptr nullptr w1
      = Some ((E_FAIL, nullptr), w2) /\
    g_pfnDirectInput8Create w2 = None /\ Double.loads (genuine w2) = 2.
Proof.
  destruct (DirectInput8Create_load_failure_not_cached (Double.fresh_world Double.no_dll)
              0 0x0800 IID_IDirectInput8A nullptr nullptr eq_refl) as [Hfirst _].
  destruct (Hfirst _ eq_refl) as [Hcall1 Hunset1].
  destruct (DirectInput8Create_load_failure_not_cached _
              0 0x0800 IID_IDirectInput8A nullptr nullptr Hunset1) as [Hsecond _].
  destruct (Hsecond _ eq_refl) as [Hcall2 Hunset2].
  eexists _, _.
  split; [exact Hcall1 |]. split; [exact Hunset1 |]. split; [reflexivity |].
  split; [exact Hcall2 |]. split; [exact Hunset2 |]. reflexivity.
Defined.

(** * Further properties *)

(** ** Creation of the factory and of devices *)

Section Creation.
Context `{Genuine E}.

(* what the export evaluates to for one of the two interfaces it wraps *)
Lemma DirectInput8Create_through_recognised
    (w : World E) pfn hinst dwVersion riid ppvOut punkOuter hr pReal e' :
  riid = IID_IDirectInput8A \/ riid = IID_IDirectInput8W ->
  call_DirectInput8Create pfn hinst dwVersion riid nullptr punkOuter (genuine w)
    = (hr, pReal, e') ->
  exists l,
    DirectInput8Create_through pfn hinst dwVersion riid ppvOut punkOuter w =
      if SUCCEEDED hr
      then Some ((hr, Proxy (fresh (dom (heap w)))),
                 mkWorld e' (memory w)
                         (<[fresh (dom (heap w)) := factory_of riid pReal]> (heap w))
                         (g_pfnDirectInput8Create w) (log_enabled w) l)
      else Some ((hr, ppvOut),
                 mkWorld e' (memory w) (heap w)
                         (g_pfnDirectInput8Create w) (log_enabled w) l).
Proof.
  intros Hriid Hcall. destruct w as [e m hp pfn0 enabled lf]. cbn in Hcall.
  unfold DirectInput8Create_through, WrapperIDirectInput8A.new, WrapperIDirectInput8W.new.
  destruct Hriid as [-> | ->]; cbn [IsEqualGUID]; unfold factory_of.
  - replace (IsEqualGUID IID_IDirectInput8A IID_IDirectInput8A) with true by reflexivity.
    step. rewrite Hcall. step. destruct (SUCCEEDED hr); step; eexists; reflexivity.
  - replace (IsEqualGUID IID_IDirectInput8W IID_IDirectInput8A) with false by reflexivity.
    replace (IsEqualGUID IID_IDirectInput8W IID_IDirectInput8W) with true by reflexivity.
    step. rewrite Hcall. step. destruct (SUCCEEDED hr); step; eexists; reflexivity.
Qed.

Lemma DirectInput8Create_at_hand
    (w : World E) pfn e1 hinst dwVersion riid ppvOut punkOuter :
  genuine_function_at_hand w pfn e1 ->
  DirectInput8Create hinst dwVersion riid ppvOut punkOuter w =
    DirectInput8Create_through pfn hinst dwVersion riid ppvOut punkOuter
      (mkWorld e1 (memory w) (heap w) (Some pfn) (log_enabled w) (log_file w)).
Proof.
  intros [[Hpfn ->] | (Hpfn & hMod & e0 & Hload & Hproc)]; unfold DirectInput8Create, bind.
  - rewrite (resolve_cached w pfn Hpfn). destruct w; cbn in *. now subst.
  - now rewrite (resolve_loaded w hMod e0 (Some pfn) e1 Hpfn Hload Hproc).
Qed.

(** X1. DirectInput8Create asked for IDirectInput8A or IDirectInput8W,
    with the genuine creation function at hand: the genuine function is
    called on a null cell of the export's own, not on the caller's
    output pointer.  When it succeeds, the caller receives a factory
    wrapper that did not exist before, of the class of the requested
    interface, holding the pointer the genuine function produced, and
    the genuine result code. *)
Theorem DirectInput8Create_wraps_recognised_interface
    (w : World E) hinst dwVersion riid ppvOut punkOuter pfn e1 hr pReal e' :
  riid = IID_IDirectInput8A \/ riid = IID_IDirectInput8W ->
  genuine_function_at_hand w pfn e1 ->
  call_DirectInput8Create pfn hinst dwVersion riid nullptr punkOuter e1 = (hr, pReal, e') ->
  SUCCEEDED hr = true ->
  exists p w',
    DirectInput8Create hinst dwVersion riid ppvOut punkOuter w = Some ((hr, Proxy p), w') /\
    heap w !! p = None /\
    heap w' = <[p := factory_of riid pReal]> (heap w) /\
    wrapped (factory_of riid pReal) = pReal /\
    IID_of (factory_of riid pReal) = riid /\
    genuine w' = e' /\ memory w' = memory w.
Proof.
  intros Hriid Hhand Hcall Hok.
  rewrite (DirectInput8Create_at_hand w pfn e1) by assumption.
  destruct (DirectInput8Create_through_recognised
              (mkWorld e1 (memory w) (heap w) (Some pfn) (log_enabled w) (log_file w))
              pfn hinst dwVersion riid ppvOut punkOuter hr pReal e' Hriid Hcall) as [l ->].
  rewrite Hok. eexists _, _. split; [reflexivity |]. cbn [heap genuine memory].
  split; [apply fresh_is_free |]. split; [reflexivity |].
  destruct Hriid as [-> | ->]; now repeat split.
Qed.

(** X2. DirectInput8Create asked for IDirectInput8A or IDirectInput8W
    when the genuine creation function fails: the failure code is
    returned, the caller's output pointer keeps the content it had
    before the call, whatever the genuine function stored in its cell,
    and no wrapper object is allocated. *)
Theorem DirectInput8Create_failure_leaves_output
    (w : World E) hinst dwVersion riid ppvOut punkOuter pfn e1 hr pReal e' :
  riid = IID_IDirectInput8A \/ riid = IID_IDirectInput8W ->
  genuine_function_at_hand w pfn e1 ->
  call_DirectInput8Create pfn hinst dwVersion riid nullptr punkOuter e1 = (hr, pReal, e') ->
  SUCCEEDED hr = false ->
  exists w',
    DirectInput8Create hinst dwVersion riid ppvOut punkOuter w = Some ((hr, ppvOut), w') /\
    heap w' = heap w /\ genuine w' = e' /\ memory w' = memory w /\
    g_pfnDirectInput8Create w' = Some pfn.
Proof.
  intros Hriid Hhand Hcall Hfail.
  rewrite (DirectInput8Create_at_hand w pfn e1) by assumption.
  destruct (DirectInput8Create_through_recognised
              (mkWorld e1 (memory w) (heap w) (Some pfn) (log_enabled w) (log_file w))
              pfn hinst dwVersion riid ppvOut punkOuter hr pReal e' Hriid Hcall) as [l ->].
  rewrite Hfail. eexists. split; [reflexivity |]. now cbn.
Qed.

(** X3. CreateDevice on a factory wrapper when the real factory fails:
    the failure code is returned, the caller's output pointer keeps the
    content it had before the call, whatever the real factory stored in
    the wrapper's local pointer, the device is not asked for its
    description and no wrapper object is allocated. *)
Theorem CreateDevice_failure_leaves_output
    (w : World E) a o h rguid lplp pUnk hr pReal e1 :
  heap w !! a = Some o -> is_factory o = true -> wrapped o = Real h ->
  real_CreateDevice h rguid nullptr pUnk (genuine w) = (hr, pReal, e1) ->
  SUCCEEDED hr = false ->
  exists w',
    IDirectInput8_CreateDevice (Proxy a) rguid lplp pUnk w = Some ((hr, lplp), w') /\
    genuine w' = e1 /\ heap w' = heap w /\ memory w' = memory w.
Proof.
  intros Ho Hfac Hreal Hcreate Hfail.
  destruct w as [e m hp pfn enabled lf]. cbn in Ho, Hcreate.
  destruct o as [p | p | p | p]; cbn in Hfac, Hreal; try discriminate; subst p.
  - unfold IDirectInput8_CreateDevice, WrapperIDirectInput8A.CreateDevice,
      WrapperIDirectInput8A.m_pRealDInput.
    do 4 (step; rewrite ?Ho, ?Hcreate, ?Hfail).
    eexists. split; [reflexivity |]. now cbn.
  - unfold IDirectInput8_CreateDevice, WrapperIDirectInput8W.CreateDevice,
      WrapperIDirectInput8W.m_pRealDInput.
    do 4 (step; rewrite ?Ho, ?Hcreate, ?Hfail).
    eexists. split; [reflexivity |]. now cbn.
Qed.
End Creation.

Lemma DirectInput8Create_wraps_recognised_interface_witness :
  exists p w',
    DirectInput8Create 0 0x0800 IID_IDirectInput8W (Real 77) nullptr
        (Double.fresh_world Double.sixdof) = Some ((S_OK, Proxy p), w') /\
    heap (Double.fresh_world Double.sixdof) !! p = None /\
    heap w' = <[p := factory_of IID_IDirectInput8W (Real 10)]>
                (heap (Double.fresh_world Double.sixdof)) /\
    wrapped (factory_of IID_IDirectInput8W (Real 10)) = Real 10 /\
    IID_of (factory_of IID_IDirectInput8W (Real 10)) = IID_IDirectInput8W /\
    genuine w' = snd (Double.create 2%positive 0 0x0800 IID_IDirectInput8W nullptr nullptr
                        (snd (Double.load_library "" Double.sixdof))) /\
    memory w' = Double.zeroes.
Proof.
  apply (DirectInput8Create_wraps_recognised_interface (Double.fresh_world Double.sixdof)
           0 0x0800 IID_IDirectInput8W (Real 77) nullptr 2%positive
           (snd (Double.load_library "" Double.sixdof)) S_OK (Real 10)).
  - right. reflexivity.
  - right. split; [reflexivity |].
    exists 1%positive, (snd (Double.load_library "" Double.sixdof)).
    split; reflexivity.
  - reflexivity.
  - reflexivity.
Defined.

(* the refusing library stores Real 99 in its cell; the caller's
   pointer still reads Real 77 *)
Lemma DirectInput8Create_failure_leaves_output_witness :
  exists w',
    DirectInput8Create 0 0x0800 IID_IDirectInput8A (Real 77) nullptr Refusing.world
      = Some ((E_FAIL, Real 77), w') /\
    heap w' = heap Refusing.world /\ genuine w' = 1 /\
    memory w' = memory Refusing.world /\
    g_pfnDirectInput8Create w' = Some 2%positive.
Proof.
  apply (DirectInput8Create_failure_leaves_output Refusing.world
           0 0x0800 IID_IDirectInput8A (Real 77) nullptr 2%positive 0 E_FAIL (Real 99) 1).
  - left. reflexivity.
  - left. split; reflexivity.
  - reflexivity.
  - reflexivity.
Defined.

Lemma CreateDevice_failure_leaves_output_witness :
  exists w',
    IDirectInput8_CreateDevice (Proxy 1) GUID_Joystick (Real 77) nullptr Refusing.world
      = Some ((E_FAIL, Real 77), w') /\
    genuine w' = 1 /\ heap w' = heap Refusing.world /\ memory w' = memory Refusing.world.
Proof.
  apply (CreateDevice_failure_leaves_output Refusing.world
           1%positive (DInputW (Real 10)) 10%positive GUID_Joystick (Real 77) nullptr
           E_FAIL (Real 99) 1);
    reflexivity.
Defined.

(** ** The device type test and the log line for it *)

Lemma LOBYTE_mod w : LOBYTE w = w mod 256.
Proof. unfold LOBYTE. change 0xff with (Z.ones 8). now rewrite Z.land_ones. Qed.

Lemma HIBYTE_mod w : HIBYTE w = (w / 256) mod 256.
Proof.
  unfold HIBYTE. change 0xff with (Z.ones 8).
  rewrite Z.land_ones by lia. now rewrite Z.shiftr_div_pow2 by lia.
Qed.

(** X4. The test CreateDevice makes looks at the two low bytes of
    dwDevType only: a device is wrapped exactly when the low word of
    its type is 0x0318, whatever the flag bits above it (such as the
    HID flag 0x00010000). *)
Theorem first_person_sixdof_low_word (dwDevType : DWORD) :
  first_person_sixdof dwDevType <-> dwDevType mod 0x10000 = 0x0318.
Proof.
  unfold first_person_sixdof, GET_DIDEVICE_TYPE, GET_DIDEVICE_SUBTYPE,
    DI8DEVTYPE_1STPERSON, DI8DEVTYPE1STPERSON_SIXDOF.
  rewrite LOBYTE_mod, HIBYTE_mod.
  split.
  - intros [Hlo Hhi]. Z.div_mod_to_equations. lia.
  - intros Hword. Z.div_mod_to_equations. lia.
Qed.

Lemma hex_value_digit d : 0 <= d < 16 -> hex_value (hex_digit d) = Some d.
Proof.
  intros Hd.
  assert (d = 0 \/ d = 1 \/ d = 2 \/ d = 3 \/ d = 4 \/ d = 5 \/ d = 6 \/ d = 7 \/
          d = 8 \/ d = 9 \/ d = 10 \/ d = 11 \/ d = 12 \/ d = 13 \/ d = 14 \/ d = 15)
    as Hcases by lia.
  repeat (destruct Hcases as [-> | Hcases]; [reflexivity |]).
  subst d. reflexivity.
Qed.

Lemma nibble_mod v k : 0 <= k -> Z.land (Z.shiftr v k) 15 = (v / 2 ^ k) mod 16.
Proof.
  intros Hk. change 15 with (Z.ones 4).
  rewrite Z.land_ones by lia. now rewrite Z.shiftr_div_pow2.
Qed.

(** X5. The "Device Type: 0x..." log line of CreateDevice: a 32-bit
    dwDevType is written as exactly eight lower-case hexadecimal
    digits, and reading the eight digits back gives dwDevType again. *)
Theorem hex8_reads_back (dwDevType : DWORD) :
  0 <= dwDevType < 2 ^ 32 ->
  String.length (hex8 dwDevType) = 8%nat /\
  read_hex 0 (hex8 dwDevType) = Some dwDevType.
Proof.
  intros Hrange. split; [reflexivity |].
  unfold hex8. cbn [seq map string_of_list_ascii read_hex].
  rewrite !nibble_mod by (cbn; lia).
  rewrite !hex_value_digit by (apply Z.mod_pos_bound; lia).
  f_equal.
  change (2 ^ (4 * (7 - Z.of_nat 0))) with 268435456.
  change (2 ^ (4 * (7 - Z.of_nat 1))) with 16777216.
  change (2 ^ (4 * (7 - Z.of_nat 2))) with 1048576.
  change (2 ^ (4 * (7 - Z.of_nat 3))) with 65536.
  change (2 ^ (4 * (7 - Z.of_nat 4))) with 4096.
  change (2 ^ (4 * (7 - Z.of_nat 5))) with 256.
  change (2 ^ (4 * (7 - Z.of_nat 6))) with 16.
  change (2 ^ (4 * (7 - Z.of_nat 7))) with 1.
  change (2 ^ 32) with 4294967296 in Hrange.
  Z.div_mod_to_equations. lia.
Qed.

Lemma hex8_reads_back_witness :
  String.length (hex8 0x00010318) = 8%nat /\
  read_hex 0 (hex8 0x00010318) = Some 0x00010318.
Proof. apply (hex8_reads_back 0x00010318). split; [discriminate | reflexivity]. Defined.

(** ** A created device, polled *)

Section Polling.
Context `{Genuine E} `{GenuineDevice E}.

Lemma GetDeviceState_on_real (w : World E) d cbData lpvData :
  IDirectInputDevice8_GetDeviceState (Real d) cbData lpvData w =
    let '(hr, e, m) := real_GetDeviceState d cbData lpvData (genuine w) (memory w) in
    Some (hr, mkWorld e m (heap w) (g_pfnDirectInput8Create w) (log_enabled w) (log_file w)).
Proof.
  unfold IDirectInputDevice8_GetDeviceState, through_mem.
  now destruct (real_GetDeviceState d cbData lpvData (genuine w) (memory w)) as [[hr e] m].
Qed.

(** X6. CreateDevice followed by GetDeviceState on the pointer it
    handed out, with a DIJOYSTATE buffer and both real calls
    succeeding.  If the device answered GetDeviceInfo as a first-person
    six-degrees-of-freedom device, the state the game reads is the real
    one with lRx and lRy zero; in every other case (another type, or no
    answer) the game holds the real device and reads exactly what it
    wrote. *)
Theorem created_device_polled
    (w : World E) a o h rguid lplp pUnk hr d e1 hr_info didi e2 lpvData hr_state e3 m3 :
  heap w !! a = Some o -> is_factory o = true -> wrapped o = Real h ->
  real_CreateDevice h rguid nullptr pUnk (genuine w) = (hr, Real d, e1) ->
  SUCCEEDED hr = true ->
  real_GetDeviceInfo d (sizeof_DIDEVICEINSTANCE_of o) e1 = (hr_info, didi, e2) ->
  real_GetDeviceState d sizeof_DIJOYSTATE lpvData e2 (memory w) = (hr_state, e3, m3) ->
  SUCCEEDED hr_state = true ->
  exists dev w',
    (let* '(_, dev) := IDirectInput8_CreateDevice (Proxy a) rguid lplp pUnk in
     let* hr_state := IDirectInputDevice8_GetDeviceState dev sizeof_DIJOYSTATE lpvData in
     ret (dev, hr_state)) w = Some ((dev, hr_state), w') /\
    genuine w' = e3 /\
    (SUCCEEDED hr_info = true /\ first_person_sixdof (dwDevType didi) ->
       heap w' !! a = Some o /\
       load_DIJOYSTATE (memory w') lpvData = without_rotation (load_DIJOYSTATE m3 lpvData)) /\
    (~ (SUCCEEDED hr_info = true /\ first_person_sixdof (dwDevType didi)) ->
       dev = Real d /\ memory w' = m3).
Proof.
  intros Ho Hfac Hreal Hcreate Hok Hinfo Hstate Hok_state.
  destruct (CreateDevice_on_proxy w a o h rguid lplp pUnk hr d e1 hr_info didi e2)
    as [l Hrun]; try assumption.
  unfold bind at 1. rewrite Hrun. clear Hrun.
  destruct (SUCCEEDED hr_info
            && ((GET_DIDEVICE_TYPE (dwDevType didi) =? DI8DEVTYPE_1STPERSON)
                && (GET_DIDEVICE_SUBTYPE (dwDevType didi) =? DI8DEVTYPE1STPERSON_SIXDOF)))
    eqn:Hwrap.
  - unfold bind.
    rewrite (GetDeviceState_on_proxy _ (fresh (dom (heap w))) (device_of o (Real d)) d);
      cbn [heap genuine memory].
    + rewrite Hstate, Hok_state, Z.eqb_refl. cbn [andb].
      eexists _, _. split; [reflexivity |]. cbn [heap genuine memory].
      split; [reflexivity |]. split.
      * intros _. split; [| apply load_blank_rotation].
        rewrite lookup_insert_ne; [assumption |].
        intros Heq. pose proof (fresh_is_free (heap w)) as Hfree.
        rewrite Heq in Hfree. congruence.
      * intros Hnot. exfalso. apply Hnot.
        apply andb_true_iff in Hwrap as [-> Htype].
        split; [reflexivity | now apply first_person_sixdof_test].
    + apply lookup_insert_eq.
    + now destruct o.
    + now destruct o.
  - unfold bind. rewrite GetDeviceState_on_real. cbn [heap genuine memory].
    rewrite Hstate.
    eexists _, _. split; [reflexivity |]. cbn [heap genuine memory].
    split; [reflexivity |]. split.
    + intros [Hinfo_ok Htype]. apply first_person_sixdof_test in Htype.
      rewrite Hinfo_ok, Htype in Hwrap. discriminate Hwrap.
    + intros _. now split.
Qed.
End Polling.

Lemma created_device_polled_witness :
  exists dev w',
    (let* '(_, dev) := IDirectInput8_CreateDevice (Proxy 1) GUID_Joystick nullptr nullptr in
     let* hr_state := IDirectInputDevice8_GetDeviceState dev sizeof_DIJOYSTATE 1000 in
     ret (dev, hr_state)) (Double.world Double.sixdof) = Some ((dev, S_OK), w') /\
    genuine w' = Double.with_device Double.sixdof /\
    (SUCCEEDED S_OK = true /\ first_person_sixdof 0x00010318 ->
       heap w' !! 1%positive = Some (DInputA (Real 10)) /\
       load_DIJOYSTATE (memory w') 1000
         = without_rotation (load_DIJOYSTATE (Double.fill Double.zeroes 1000) 1000)) /\
    (~ (SUCCEEDED S_OK = true /\ first_person_sixdof 0x00010318) ->
       dev = Real 20 /\ memory w' = Double.fill Double.zeroes 1000).
Proof.
  apply (created_device_polled (Double.world Double.sixdof)
           1%positive (DInputA (Real 10)) 10%positive GUID_Joystick nullptr nullptr
           S_OK 20%positive (Double.with_device Double.sixdof) S_OK
           {| dwDevType := 0x00010318; tszProductName := "Wireless Controller" |}
           (Double.with_device Double.sixdof) 1000 S_OK
           (Double.with_device Double.sixdof) (Double.fill Double.zeroes 1000));
    reflexivity.
Defined.

(** ** The pass-through methods *)

Ltac unfold_pass_through :=
  unfold IDirectInputDevice8_Acquire, IDirectInputDevice8_Unacquire,
    IDirectInputDevice8_Poll, IDirectInputDevice8_SetDataFormat,
    IDirectInputDevice8_GetDeviceData,
    PassThroughDevice8A.Acquire, PassThroughDevice8W.Acquire,
    PassThroughDevice8A.Unacquire, PassThroughDevice8W.Unacquire,
    PassThroughDevice8A.Poll, PassThroughDevice8W.Poll,
    PassThroughDevice8A.SetDataFormat, PassThroughDevice8W.SetDataFormat,
    PassThroughDevice8A.GetDeviceData, PassThroughDevice8W.GetDeviceData,
    WrapperIDirectInputDevice8A.m_pRealDevice, WrapperIDirectInputDevice8W.m_pRealDevice.

Section PassThrough.
Context `{Genuine E} `{GenuineDevice E}.

Lemma Acquire_on_proxy (w : World E) a o h :
  heap w !! a = Some o -> is_device o = true -> wrapped o = Real h ->
  exists l,
    IDirectInputDevice8_Acquire (Proxy a) w =
      Some (fst (real_Acquire h (genuine w)),
            mkWorld (snd (real_Acquire h (genuine w))) (memory w) (heap w)
                    (g_pfnDirectInput8Create w) (log_enabled w) l).
Proof.
  intros Ho Hdev Hreal. destruct w as [e m hp pfn enabled lf]. cbn in Ho.
  destruct o as [p | p | p | p]; cbn in Hdev, Hreal; try discriminate; subst p;
    unfold_pass_through; do 3 (step; rewrite ?Ho);
    destruct (real_Acquire h e); eexists; reflexivity.
Qed.

Lemma Poll_on_proxy (w : World E) a o h :
  heap w !! a = Some o -> is_device o = true -> wrapped o = Real h ->
  IDirectInputDevice8_Poll (Proxy a) w =
    Some (fst (real_Poll h (genuine w)), set_genuine (snd (real_Poll h (genuine w))) w).
Proof.
  intros Ho Hdev Hreal. destruct w as [e m hp pfn enabled lf]. cbn in Ho.
  destruct o as [p | p | p | p]; cbn in Hdev, Hreal; try discriminate; subst p;
    unfold_pass_through; do 3 (step; rewrite ?Ho);
    destruct (real_Poll h e); reflexivity.
Qed.

Lemma SetDataFormat_on_proxy (w : World E) a o h lpdf :
  heap w !! a = Some o -> is_device o = true -> wrapped o = Real h ->
  IDirectInputDevice8_SetDataFormat (Proxy a) lpdf w =
    Some (fst (real_SetDataFormat h lpdf (genuine w) (memory w)),
          set_genuine (snd (real_SetDataFormat h lpdf (genuine w) (memory w))) w).
Proof.
  intros Ho Hdev Hreal. destruct w as [e m hp pfn enabled lf]. cbn in Ho.
  destruct o as [p | p | p | p]; cbn in Hdev, Hreal; try discriminate; subst p;
    unfold_pass_through; do 3 (step; rewrite ?Ho);
    destruct (real_SetDataFormat h lpdf e m); reflexivity.
Qed.

(** X7. A polling session on a device wrapper: SetDataFormat, Acquire,
    Poll, then GetDeviceState with a DIJOYSTATE-sized buffer.  The
    three set-up calls return what the real device returned, and
    whenever the final GetDeviceState succeeds the two rotation fields
    read zero: the wrapper keeps no record of the data format and
    decides on the buffer size alone, whatever format was set and
    whether or not the set-up calls succeeded. *)
Theorem polling_session
    (w : World E) a o h lpdf lpvData hr1 e1 hr2 e2 hr3 e3 hr4 e4 m4 :
  heap w !! a = Some o -> is_device o = true -> wrapped o = Real h ->
  real_SetDataFormat h lpdf (genuine w) (memory w) = (hr1, e1) ->
  real_Acquire h e1 = (hr2, e2) ->
  real_Poll h e2 = (hr3, e3) ->
  real_GetDeviceState h sizeof_DIJOYSTATE lpvData e3 (memory w) = (hr4, e4, m4) ->
  SUCCEEDED hr4 = true ->
  exists w',
    (let* r1 := IDirectInputDevice8_SetDataFormat (Proxy a) lpdf in
     let* r2 := IDirectInputDevice8_Acquire (Proxy a) in
     let* r3 := IDirectInputDevice8_Poll (Proxy a) in
     let* r4 := IDirectInputDevice8_GetDeviceState (Proxy a) sizeof_DIJOYSTATE lpvData in
     ret (r1, r2, r3, r4)) w = Some ((hr1, hr2, hr3, hr4), w') /\
    genuine w' = e4 /\ heap w' = heap w /\
    load_DIJOYSTATE (memory w') lpvData = without_rotation (load_DIJOYSTATE m4 lpvData).
Proof.
  intros Ho Hdev Hreal Hformat Hacquire Hpoll Hstate Hok.
  unfold bind at 1. rewrite (SetDataFormat_on_proxy w a o h) by assumption.
  rewrite Hformat. cbn [fst snd].
  unfold bind at 1.
  destruct (Acquire_on_proxy (set_genuine e1 w) a o h) as [l ->]; try assumption.
  cbn [set_genuine genuine memory heap g_pfnDirectInput8Create log_enabled].
  rewrite Hacquire. cbn [fst snd].
  unfold bind at 1. rewrite (Poll_on_proxy _ a o h) by assumption.
  cbn [set_genuine genuine memory heap g_pfnDirectInput8Create log_enabled log_file].
  rewrite Hpoll. cbn [fst snd].
  unfold bind at 1. rewrite (GetDeviceState_on_proxy _ a o h) by assumption.
  cbn [set_genuine genuine memory heap g_pfnDirectInput8Create log_enabled log_file].
  rewrite Hstate, Hok, Z.eqb_refl. cbn [andb].
  eexists. split; [reflexivity |]. cbn [genuine heap memory].
  split; [reflexivity |]. split; [reflexivity |]. apply load_blank_rotation.
Qed.

(** X8. GetDeviceData on a device wrapper: the buffered events reach
    the game exactly as the real device stored them, for every record
    size and whether the call succeeds or not.  The blanking of the
    rotation axes is not applied on this path. *)
Theorem GetDeviceData_unfiltered
    (w : World E) a o h cbObjectData rgdod pdwInOut dwFlags hr e1 m1 :
  heap w !! a = Some o -> is_device o = true -> wrapped o = Real h ->
  real_GetDeviceData h cbObjectData rgdod pdwInOut dwFlags (genuine w) (memory w)
    = (hr, e1, m1) ->
  IDirectInputDevice8_GetDeviceData (Proxy a) cbObjectData rgdod pdwInOut dwFlags w =
    Some (hr, mkWorld e1 m1 (heap w) (g_pfnDirectInput8Create w)
                      (log_enabled w) (log_file w)).
Proof.
  intros Ho Hdev Hreal Hcall. destruct w as [e m hp pfn enabled lf]. cbn in Ho, Hcall.
  destruct o as [p | p | p | p]; cbn in Hdev, Hreal; try discriminate; subst p;
    unfold_pass_through; do 3 (step; rewrite ?Ho, ?Hcall); reflexivity.
Qed.
End PassThrough.

Lemma polling_session_witness :
  exists w',
    (let* r1 := IDirectInputDevice8_SetDataFormat (Proxy 2) 5000 in
     let* r2 := IDirectInputDevice8_Acquire (Proxy 2) in
     let* r3 := IDirectInputDevice8_Poll (Proxy 2) in
     let* r4 := IDirectInputDevice8_GetDeviceState (Proxy 2) sizeof_DIJOYSTATE 1000 in
     ret (r1, r2, r3, r4)) (DoubleDevice.logging Double.sixdof)
      = Some ((S_OK, S_OK, S_OK, S_OK), w') /\
    genuine w' = Double.sixdof /\
    heap w' = heap (DoubleDevice.logging Double.sixdof) /\
    load_DIJOYSTATE (memory w') 1000
      = without_rotation (load_DIJOYSTATE (Double.fill Double.zeroes 1000) 1000).
Proof.
  apply (polling_session (DoubleDevice.logging Double.sixdof)
           2%positive (DeviceA (Real 20)) 20%positive 5000 1000
           S_OK Double.sixdof S_OK Double.sixdof S_OK Double.sixdof
           S_OK Double.sixdof (Double.fill Double.zeroes 1000));
    reflexivity.
Defined.

(* the buffered Rx event of the stand-in arrives with its value 150 *)
Lemma GetDeviceData_unfiltered_witness :
  IDirectInputDevice8_GetDeviceData (Proxy 2) 16 2000 3000 0 (Double.world Double.sixdof) =
    Some (S_OK, mkWorld Double.sixdof (DoubleDevice.events Double.zeroes 2000 3000)
                        (heap (Double.world Double.sixdof)) (Some 2%positive) false []) /\
  load_LONG (DoubleDevice.events Double.zeroes 2000 3000) 2000 = offsetof_lRx /\
  load_LONG (DoubleDevice.events Double.zeroes 2000 3000) 2004 = 150.
Proof.
  split; [| split; reflexivity].
  apply (GetDeviceData_unfiltered (Double.world Double.sixdof)
           2%positive (DeviceA (Real 20)) 20%positive 16 2000 3000 0 S_OK
           Double.sixdof (DoubleDevice.events Double.zeroes 2000 3000));
    reflexivity.
Defined.

(** ** Devices without rotation axes *)

Section Transparent.
Context `{Genuine E}.

End Transparent.


(** ** Logging does not interfere *)

Section LogBlind.
Context `{Genuine E} `{GenuineDevice E}.

Lemma same_but_log_refl (w : World E) : same_but_log w w.
Proof. now repeat split. Qed.

Lemma blind_ret {A} (x : A) : log_blind (E := E) (ret x).
Proof. intros w1 w2 Hw. now split. Qed.

Lemma blind_undefined {A} : log_blind (E := E) (A := A) undefined.
Proof. intros w1 w2 Hw. exact I. Qed.

Lemma blind_bind {A B} (m : M E A) (k : A -> M E B) :
  log_blind m -> (forall x, log_blind (k x)) -> log_blind (bind m k).
Proof.
  intros Hm Hk w1 w2 Hw. unfold bind. specialize (Hm w1 w2 Hw).
  destruct (m w1) as [[x1 w1'] |], (m w2) as [[x2 w2'] |]; try contradiction; [| exact I].
  destruct Hm as [-> Hw']. now apply Hk.
Qed.

Lemma blind_sys {A} (f : E -> A * E) : log_blind (sys f).
Proof.
  intros [e1 m1 h1 p1 en1 l1] [e2 m2 h2 p2 en2 l2] (He & Hm & Hh & Hp); cbn in *; subst.
  unfold sys. cbn. destruct (f e2). now repeat split.
Qed.

Lemma blind_through {A} (p : Ptr) (method : positive -> E -> A * E) :
  log_blind (through p method).
Proof. destruct p; [apply blind_undefined | apply blind_sys | apply blind_undefined]. Qed.

Lemma blind_through_mem (p : Ptr) method : log_blind (E := E) (through_mem p method).
Proof.
  destruct p as [| h |]; [apply blind_undefined | | apply blind_undefined].
  intros [e1 m1 h1 p1 en1 l1] [e2 m2 h2 p2 en2 l2] (He & Hm & Hh & Hp); cbn in *; subst.
  destruct (method h e2 m2) as [[hr e] m]. now repeat split.
Qed.

Lemma blind_write_LONG a v : log_blind (E := E) (write_LONG a v).
Proof.
  intros [e1 m1 h1 p1 en1 l1] [e2 m2 h2 p2 en2 l2] (He & Hm & Hh & Hp); cbn in *; subst.
  now repeat split.
Qed.

Lemma blind_operator_new o : log_blind (E := E) (operator_new o).
Proof.
  intros [e1 m1 h1 p1 en1 l1] [e2 m2 h2 p2 en2 l2] (He & Hm & Hh & Hp); cbn in *; subst.
  now repeat split.
Qed.

Lemma blind_operator_delete this : log_blind (E := E) (operator_delete this).
Proof.
  intros [e1 m1 h1 p1 en1 l1] [e2 m2 h2 p2 en2 l2] (He & Hm & Hh & Hp); cbn in *; subst.
  now repeat split.
Qed.

Lemma blind_Log message : log_blind (E := E) (Log message).
Proof.
  intros [e1 m1 h1 p1 en1 l1] [e2 m2 h2 p2 en2 l2] (He & Hm & Hh & Hp); cbn in *; subst.
  now repeat split.
Qed.

(* a computation that only reads the wrapper heap *)
Lemma blind_reader {A} (f : gmap positive Object -> option A) :
  log_blind (E := E) (fun w => match f (heap w) with Some x => Some (x, w) | None => None end).
Proof.
  intros w1 w2 Hw. destruct Hw as (He & Hm & Hh & Hp). rewrite Hh.
  destruct (f (heap w2)); [| exact I]. now repeat split.
Qed.

Lemma blind_class_of a : log_blind (E := E) (class_of a).
Proof. apply (blind_reader (fun hp => hp !! a)). Qed.

Lemma blind_m_pRealDevice_A this : log_blind (E := E) (WrapperIDirectInputDevice8A.m_pRealDevice this).
Proof.
  intros w1 w2 Hw. unfold WrapperIDirectInputDevice8A.m_pRealDevice.
  destruct Hw as (He & Hm & Hh & Hp). rewrite Hh.
  destruct (heap w2 !! this) as [[] |]; try exact I. now repeat split.
Qed.

Lemma blind_m_pRealDevice_W this : log_blind (E := E) (WrapperIDirectInputDevice8W.m_pRealDevice this).
Proof.
  intros w1 w2 Hw. unfold WrapperIDirectInputDevice8W.m_pRealDevice.
  destruct Hw as (He & Hm & Hh & Hp). rewrite Hh.
  destruct (heap w2 !! this) as [[] |]; try exact I. now repeat split.
Qed.

Lemma blind_m_pRealDInput_A this : log_blind (E := E) (WrapperIDirectInput8A.m_pRealDInput this).
Proof.
  intros w1 w2 Hw. unfold WrapperIDirectInput8A.m_pRealDInput.
  destruct Hw as (He & Hm & Hh & Hp). rewrite Hh.
  destruct (heap w2 !! this) as [[] |]; try exact I. now repeat split.
Qed.

Lemma blind_m_pRealDInput_W this : log_blind (E := E) (WrapperIDirectInput8W.m_pRealDInput this).
Proof.
  intros w1 w2 Hw. unfold WrapperIDirectInput8W.m_pRealDInput.
  destruct Hw as (He & Hm & Hh & Hp). rewrite Hh.
  destruct (heap w2 !! this) as [[] |]; try exact I. now repeat split.
Qed.

Lemma blind_set_pfn pfn :
  log_blind (E := E) (fun w => Some (tt, set_g_pfnDirectInput8Create pfn w)).
Proof.
  intros [e1 m1 h1 p1 en1 l1] [e2 m2 h2 p2 en2 l2] (He & Hm & Hh & Hp); cbn in *; subst.
  now repeat split.
Qed.

Lemma blind_with_memory {A} (k : Mem -> M E A) :
  (forall m, log_blind (k m)) -> log_blind (fun w => k (memory w) w).
Proof.
  intros Hk w1 w2 Hw. pose proof Hw as (_ & Hm & _). rewrite Hm. now apply Hk.
Qed.
End LogBlind.

(* take a computation apart into the pieces above *)
Ltac blind :=
  repeat first
    [ apply blind_ret | apply blind_undefined | apply blind_sys | apply blind_through
    | apply blind_through_mem | apply blind_write_LONG | apply blind_operator_new
    | apply blind_operator_delete | apply blind_Log | apply blind_class_of
    | apply blind_m_pRealDevice_A | apply blind_m_pRealDevice_W
    | apply blind_m_pRealDInput_A | apply blind_m_pRealDInput_W
    | apply blind_set_pfn
    | apply blind_bind; [| intros ?]
    | match goal with
      | |- log_blind (match ?x with _ => _ end) => destruct x
      end ].

Section LogBlindCalls.
Context `{Genuine E} `{GenuineDevice E}.

Lemma blind_when_unset {A} (cached : FARPROC -> M E A) (unset : M E A) :
  (forall pfn, log_blind (cached pfn)) -> log_blind unset ->
  log_blind (fun w => match g_pfnDirectInput8Create w with
                      | Some pfn => cached pfn w
                      | None => unset w
                      end).
Proof.
  intros Hcached Hunset w1 w2 Hw. pose proof Hw as (_ & _ & _ & Hp). rewrite Hp.
  destruct (g_pfnDirectInput8Create w2); [now apply Hcached | now apply Hunset].
Qed.

Lemma blind_resolve : log_blind (E := E) resolve_g_pfnDirectInput8Create.
Proof.
  unfold resolve_g_pfnDirectInput8Create.
  apply blind_when_unset; [intros pfn; apply blind_ret | blind].
Qed.

(** X10. Logging is no part of what the wrapper does for the game.
    Run any entry point in two worlds that differ only in whether
    logging is switched on and in what the log holds: both runs have a
    defined result or neither has, the results are equal, and the
    worlds after them again differ in the log only. *)
Theorem logging_does_not_interfere :
  (forall hinst dwVersion riid ppvOut punkOuter,
     log_blind (E := E) (DirectInput8Create hinst dwVersion riid ppvOut punkOuter)) /\
  (forall p rguid lplp pUnk, log_blind (E := E) (IDirectInput8_CreateDevice p rguid lplp pUnk)) /\
  (forall p cbData lpvData,
     log_blind (E := E) (IDirectInputDevice8_GetDeviceState p cbData lpvData)) /\
  (forall p, log_blind (E := E) (IUnknown_AddRef p)) /\
  (forall p, log_blind (E := E) (IUnknown_Release p)) /\
  (forall p riid ppvObj, log_blind (E := E) (IUnknown_QueryInterface p riid ppvObj)) /\
  (forall p, log_blind (E := E) (IDirectInputDevice8_Acquire p)) /\
  (forall p, log_blind (E := E) (IDirectInputDevice8_Unacquire p)) /\
  (forall p, log_blind (E := E) (IDirectInputDevice8_Poll p)) /\
  (forall p lpdf, log_blind (E := E) (IDirectInputDevice8_SetDataFormat p lpdf)) /\
  (forall p cbObjectData rgdod pdwInOut dwFlags,
     log_blind (E := E) (IDirectInputDevice8_GetDeviceData p cbObjectData rgdod pdwInOut dwFlags)) /\
  (forall hModule reason lpReserved, log_blind (E := E) (DllMain hModule reason lpReserved)).
Proof.
  repeat split; intros.
  - unfold DirectInput8Create. apply blind_bind; [apply blind_resolve |].
    intros [pfn |]; [| apply blind_ret].
    unfold DirectInput8Create_through, WrapperIDirectInput8A.new, WrapperIDirectInput8W.new.
    blind.
  - unfold IDirectInput8_CreateDevice, WrapperIDirectInput8A.CreateDevice,
      WrapperIDirectInput8W.CreateDevice, WrapperIDirectInputDevice8A.new,
      WrapperIDirectInputDevice8W.new.
    blind.
  - unfold IDirectInputDevice8_GetDeviceState, WrapperIDirectInputDevice8A.GetDeviceState,
      WrapperIDirectInputDevice8W.GetDeviceState.
    blind.
  - unfold IUnknown_AddRef, WrapperIDirectInputDevice8A.AddRef, WrapperIDirectInput8A.AddRef,
      WrapperIDirectInputDevice8W.AddRef, WrapperIDirectInput8W.AddRef.
    blind.
  - unfold IUnknown_Release, WrapperIDirectInputDevice8A.Release, WrapperIDirectInput8A.Release,
      WrapperIDirectInputDevice8W.Release, WrapperIDirectInput8W.Release.
    blind.
  - unfold IUnknown_QueryInterface, WrapperIDirectInputDevice8A.QueryInterface,
      WrapperIDirectInput8A.QueryInterface, WrapperIDirectInputDevice8W.QueryInterface,
      WrapperIDirectInput8W.QueryInterface, WrapperIDirectInputDevice8A.AddRef,
      WrapperIDirectInput8A.AddRef, WrapperIDirectInputDevice8W.AddRef,
      WrapperIDirectInput8W.AddRef.
    blind.
  - unfold IDirectInputDevice8_Acquire, PassThroughDevice8A.Acquire, PassThroughDevice8W.Acquire.
    blind.
  - unfold IDirectInputDevice8_Unacquire, PassThroughDevice8A.Unacquire,
      PassThroughDevice8W.Unacquire.
    blind.
  - unfold IDirectInputDevice8_Poll, PassThroughDevice8A.Poll, PassThroughDevice8W.Poll.
    blind.
  - unfold IDirectInputDevice8_SetDataFormat, PassThroughDevice8A.SetDataFormat,
      PassThroughDevice8W.SetDataFormat.
    destruct p; blind;
      apply (blind_with_memory (fun m => through _ (fun h e => real_SetDataFormat h lpdf e m)))
      || apply (blind_with_memory (fun m => sys (fun e => real_SetDataFormat _ lpdf e m)));
      intros; blind.
  - unfold IDirectInputDevice8_GetDeviceData, PassThroughDevice8A.GetDeviceData,
      PassThroughDevice8W.GetDeviceData.
    blind.
  - unfold DllMain. blind.
Qed.
End LogBlindCalls.

(* CreateDevice on the stand-in with logging off and with logging on *)
Lemma logging_does_not_interfere_witness :
  same_but_log (Double.world Double.sixdof) (DoubleDevice.logging Double.sixdof) /\
  match IDirectInput8_CreateDevice (Proxy 1) GUID_Joystick nullptr nullptr
          (Double.world Double.sixdof),
        IDirectInput8_CreateDevice (Proxy 1) GUID_Joystick nullptr nullptr
          (DoubleDevice.logging Double.sixdof) with
  | Some (x1, w1'), Some (x2, w2') => x1 = x2 /\ same_but_log w1' w2'
  | None, None => True
  | _, _ => False
  end.
Proof.
  assert (Hw : same_but_log (Double.world Double.sixdof) (DoubleDevice.logging Double.sixdof))
    by (repeat split).
  split; [exact Hw |].
  destruct (logging_does_not_interfere (E := Double.state)) as (_ & Hcreate & _).
  exact (Hcreate (Proxy 1) GUID_Joystick nullptr nullptr _ _ Hw).
Defined.

(* the lines CreateDevice writes for the wrapped stand-in device *)
Example CreateDevice_log_lines :
  match IDirectInput8_CreateDevice (Proxy 1) GUID_Joystick nullptr nullptr
          (DoubleDevice.logging Double.sixdof) with
  | Some (_, w') => log_file w'
  | None => []
  end
  = ["CreateDevice() called."; "Device Info: Wireless Controller";
     "Device Type: 0x00010318";
     "Device is a six degrees of freedom, first-person controller. Wrapping it.";
     "WrapperIDirectInputDevice8A created."]%string.
Proof. reflexivity. Qed.

(** ** What a call leaves in place *)

Section Frame.
Context `{Genuine E} `{GenuineDevice E}.

Lemma keeps_objects_refl (w : World E) : keeps_objects w w.
Proof. now repeat split. Qed.

Lemma keeps_objects_trans (w1 w2 w3 : World E) :
  keeps_objects w1 w2 -> keeps_objects w2 w3 -> keeps_objects w1 w3.
Proof.
  intros (Hh1 & Hp1 & Hl1) (Hh2 & Hp2 & Hl2). repeat split.
  - now transitivity (heap w2).
  - congruence.
  - congruence.
Qed.

Lemma keeps_ret {A} (x : A) : always (E := E) keeps_objects (ret x).
Proof. intros w y w' [= <- <-]. apply keeps_objects_refl. Qed.

Lemma keeps_undefined {A} : always (E := E) (A := A) keeps_objects undefined.
Proof. intros w y w' [=]. Qed.

Lemma keeps_bind {A B} (m : M E A) (k : A -> M E B) :
  always keeps_objects m -> (forall x, always keeps_objects (k x)) ->
  always keeps_objects (bind m k).
Proof.
  intros Hm Hk w y w' Hrun. unfold bind in Hrun.
  destruct (m w) as [[x w1] |] eqn:Hfirst; [| discriminate].
  apply (keeps_objects_trans w w1 w'); [now apply (Hm w x) | now apply (Hk x w1 y)].
Qed.

Lemma keeps_sys {A} (f : E -> A * E) : always keeps_objects (sys f).
Proof.
  intros w y w' Hrun. unfold sys in Hrun. destruct (f (genuine w)).
  injection Hrun as <- <-. now repeat split.
Qed.

Lemma keeps_through {A} (p : Ptr) (method : positive -> E -> A * E) :
  always keeps_objects (through p method).
Proof. destruct p; [apply keeps_undefined | apply keeps_sys | apply keeps_undefined]. Qed.

Lemma keeps_through_mem (p : Ptr) method : always (E := E) keeps_objects (through_mem p method).
Proof.
  destruct p as [| h |]; [apply keeps_undefined | | apply keeps_undefined].
  intros w y w' Hrun. cbn in Hrun. destruct (method h (genuine w) (memory w)) as [[hr e] m].
  injection Hrun as <- <-. now repeat split.
Qed.

Lemma keeps_write_LONG a v : always (E := E) keeps_objects (write_LONG a v).
Proof. intros w y w' [= <- <-]. now repeat split. Qed.

Lemma keeps_operator_new o : always (E := E) keeps_objects (operator_new o).
Proof.
  intros w y w' [= <- <-]. repeat split. cbn.
  apply insert_subseteq, fresh_is_free.
Qed.

Lemma keeps_Log message : always (E := E) keeps_objects (Log message).
Proof. intros w y w' [= <- <-]. now repeat split. Qed.

Lemma keeps_class_of a : always (E := E) keeps_objects (class_of a).
Proof.
  intros w y w' Hrun. unfold class_of in Hrun.
  destruct (heap w !! a); [| discriminate]. injection Hrun as <- <-.
  apply keeps_objects_refl.
Qed.

Lemma keeps_m_pRealDevice_A this :
  always (E := E) keeps_objects (WrapperIDirectInputDevice8A.m_pRealDevice this).
Proof.
  intros w y w' Hrun. unfold WrapperIDirectInputDevice8A.m_pRealDevice in Hrun.
  destruct (heap w !! this) as [[] |]; try discriminate. injection Hrun as <- <-.
  apply keeps_objects_refl.
Qed.

Lemma keeps_m_pRealDevice_W this :
  always (E := E) keeps_objects (WrapperIDirectInputDevice8W.m_pRealDevice this).
Proof.
  intros w y w' Hrun. unfold WrapperIDirectInputDevice8W.m_pRealDevice in Hrun.
  destruct (heap w !! this) as [[] |]; try discriminate. injection Hrun as <- <-.
  apply keeps_objects_refl.
Qed.

Lemma keeps_m_pRealDInput_A this :
  always (E := E) keeps_objects (WrapperIDirectInput8A.m_pRealDInput this).
Proof.
  intros w y w' Hrun. unfold WrapperIDirectInput8A.m_pRealDInput in Hrun.
  destruct (heap w !! this) as [[] |]; try discriminate. injection Hrun as <- <-.
  apply keeps_objects_refl.
Qed.

Lemma keeps_m_pRealDInput_W this :
  always (E := E) keeps_objects (WrapperIDirectInput8W.m_pRealDInput this).
Proof.
  intros w y w' Hrun. unfold WrapperIDirectInput8W.m_pRealDInput in Hrun.
  destruct (heap w !! this) as [[] |]; try discriminate. injection Hrun as <- <-.
  apply keeps_objects_refl.
Qed.

Lemma keeps_with_memory {A} (k : Mem -> M E A) :
  (forall m, always keeps_objects (k m)) -> always keeps_objects (fun w => k (memory w) w).
Proof. intros Hk w y w' Hrun. now apply (Hk (memory w) w y). Qed.
End Frame.

Ltac keeps :=
  repeat first
    [ apply keeps_ret | apply keeps_undefined | apply keeps_sys | apply keeps_through
    | apply keeps_through_mem | apply keeps_write_LONG | apply keeps_operator_new
    | apply keeps_Log | apply keeps_class_of
    | apply keeps_m_pRealDevice_A | apply keeps_m_pRealDevice_W
    | apply keeps_m_pRealDInput_A | apply keeps_m_pRealDInput_W
    | apply keeps_bind; [| intros ?]
    | match goal with
      | |- always _ (match ?x with _ => _ end) => destruct x
      end ].

Section FrameCalls.
Context `{Genuine E} `{GenuineDevice E}.

Lemma resolve_frame (w : World E) r w1 :
  resolve_g_pfnDirectInput8Create w = Some (r, w1) ->
  heap w1 = heap w /\ log_enabled w1 = log_enabled w /\
  g_pfnDirectInput8Create w1 = r /\
  (forall pfn, g_pfnDirectInput8Create w = Some pfn -> r = Some pfn).
Proof.
  destruct w as [e m hp pfn0 enabled lf]. unfold resolve_g_pfnDirectInput8Create.
  cbn [g_pfnDirectInput8Create]. destruct pfn0 as [pfn |].
  - intros [= <- <-]. now repeat split.
  - step.
    destruct (LoadLibraryA (GetSystemDirectoryA e +:+ "\dinput8.dll") e) as [[hMod |] e1];
      step.
    + destruct (GetProcAddress hMod "DirectInput8Create" e1) as [pfn e2].
      intros [= <- <-]. now repeat split.
    + intros [= <- <-]. now repeat split.
Qed.

Lemma keeps_DirectInput8Create_through pfn hinst dwVersion riid ppvOut punkOuter :
  always (E := E) keeps_objects
    (DirectInput8Create_through pfn hinst dwVersion riid ppvOut punkOuter).
Proof.
  unfold DirectInput8Create_through, WrapperIDirectInput8A.new, WrapperIDirectInput8W.new.
  keeps.
Qed.

(** X11. What the wrapper's entry points leave in place, in every run
    that has a defined result.  A method call on an interface pointer
    other than Release (CreateDevice, GetDeviceState, AddRef,
    QueryInterface, the pass-through methods) and DllMain remove no
    wrapper object and do not touch the cached function pointer.
    DirectInput8Create removes no wrapper object and never replaces a
    pointer that is cached.  Release removes at most the wrapper it is
    called on, and none when called on a genuine object. *)
Theorem only_Release_removes_objects :
  (forall p rguid lplp pUnk,
     always (E := E) keeps_objects (IDirectInput8_CreateDevice p rguid lplp pUnk)) /\
  (forall p cbData lpvData,
     always (E := E) keeps_objects (IDirectInputDevice8_GetDeviceState p cbData lpvData)) /\
  (forall p, always (E := E) keeps_objects (IUnknown_AddRef p)) /\
  (forall p riid ppvObj,
     always (E := E) keeps_objects (IUnknown_QueryInterface p riid ppvObj)) /\
  (forall p, always (E := E) keeps_objects (IDirectInputDevice8_Acquire p)) /\
  (forall p, always (E := E) keeps_objects (IDirectInputDevice8_Unacquire p)) /\
  (forall p, always (E := E) keeps_objects (IDirectInputDevice8_Poll p)) /\
  (forall p lpdf, always (E := E) keeps_objects (IDirectInputDevice8_SetDataFormat p lpdf)) /\
  (forall p cbObjectData rgdod pdwInOut dwFlags,
     always (E := E) keeps_objects
       (IDirectInputDevice8_GetDeviceData p cbObjectData rgdod pdwInOut dwFlags)) /\
  (forall hModule reason lpReserved,
     always (E := E) keeps_objects (DllMain hModule reason lpReserved)) /\
  (forall hinst dwVersion riid ppvOut punkOuter,
     always (E := E) keeps_cache (DirectInput8Create hinst dwVersion riid ppvOut punkOuter)) /\
  (forall p, always (E := E) (removes_at_most p) (IUnknown_Release p)).
Proof.
  repeat match goal with |- _ /\ _ => split end; intros.
  - unfold IDirectInput8_CreateDevice, WrapperIDirectInput8A.CreateDevice,
      WrapperIDirectInput8W.CreateDevice, WrapperIDirectInputDevice8A.new,
      WrapperIDirectInputDevice8W.new.
    keeps.
  - unfold IDirectInputDevice8_GetDeviceState, WrapperIDirectInputDevice8A.GetDeviceState,
      WrapperIDirectInputDevice8W.GetDeviceState.
    keeps.
  - unfold IUnknown_AddRef, WrapperIDirectInputDevice8A.AddRef, WrapperIDirectInput8A.AddRef,
      WrapperIDirectInputDevice8W.AddRef, WrapperIDirectInput8W.AddRef.
    keeps.
  - unfold IUnknown_QueryInterface, WrapperIDirectInputDevice8A.QueryInterface,
      WrapperIDirectInput8A.QueryInterface, WrapperIDirectInputDevice8W.QueryInterface,
      WrapperIDirectInput8W.QueryInterface, WrapperIDirectInputDevice8A.AddRef,
      WrapperIDirectInput8A.AddRef, WrapperIDirectInputDevice8W.AddRef,
      WrapperIDirectInput8W.AddRef.
    keeps.
  - unfold IDirectInputDevice8_Acquire, PassThroughDevice8A.Acquire, PassThroughDevice8W.Acquire.
    keeps.
  - unfold IDirectInputDevice8_Unacquire, PassThroughDevice8A.Unacquire,
      PassThroughDevice8W.Unacquire.
    keeps.
  - unfold IDirectInputDevice8_Poll, PassThroughDevice8A.Poll, PassThroughDevice8W.Poll.
    keeps.
  - unfold IDirectInputDevice8_SetDataFormat, PassThroughDevice8A.SetDataFormat,
      PassThroughDevice8W.SetDataFormat.
    destruct p; keeps;
      apply (keeps_with_memory (fun m => through _ (fun h e => real_SetDataFormat h lpdf e m)))
      || apply (keeps_with_memory (fun m => sys (fun e => real_SetDataFormat _ lpdf e m)));
      intros; keeps.
  - unfold IDirectInputDevice8_GetDeviceData, PassThroughDevice8A.GetDeviceData,
      PassThroughDevice8W.GetDeviceData.
    keeps.
  - unfold DllMain. keeps.
  - intros w y w' Hrun. unfold DirectInput8Create, bind in Hrun.
    destruct (resolve_g_pfnDirectInput8Create w) as [[r w1] |] eqn:Hres; [| discriminate].
    apply resolve_frame in Hres as (Hheap & Hlog & Hset & Hcached).
    destruct r as [pfn |].
    + apply keeps_DirectInput8Create_through in Hrun as (Hsub & Hpfn & Hlog').
      repeat split.
      * now rewrite <- Hheap.
      * congruence.
      * intros pfn' Hw. rewrite Hpfn, Hset. now apply Hcached.
    + injection Hrun as <- <-. repeat split.
      * now rewrite Hheap.
      * assumption.
      * intros pfn' Hw. specialize (Hcached pfn' Hw). discriminate Hcached.
  - intros w y w' Hrun. destruct p as [| h | a].
    + discriminate Hrun.
    + unfold IUnknown_Release, sys in Hrun.
      destruct (real_Release h (genuine w)) as [uRet e'].
      injection Hrun as <- <-. now repeat split.
    + destruct (heap w !! a) as [o |] eqn:Ho.
      * destruct (wrapped o) as [| h | b] eqn:Hreal.
        -- exfalso. unfold IUnknown_Release, bind, class_of in Hrun. rewrite Ho in Hrun.
           destruct o as [q | q | q | q]; cbn in Hreal; subst q;
             unfold WrapperIDirectInputDevice8A.Release, WrapperIDirectInput8A.Release,
               WrapperIDirectInputDevice8W.Release, WrapperIDirectInput8W.Release,
               WrapperIDirectInputDevice8A.m_pRealDevice, WrapperIDirectInput8A.m_pRealDInput,
               WrapperIDirectInputDevice8W.m_pRealDevice, WrapperIDirectInput8W.m_pRealDInput,
               bind in Hrun;
             rewrite Ho in Hrun; discriminate Hrun.
        -- rewrite (Release_on_proxy w a o h Ho Hreal) in Hrun.
           injection Hrun as <- <-.
           unfold removes_at_most.
           destruct (fst (real_Release h (genuine w)) =? 0);
             cbn [set_heap set_genuine heap genuine memory g_pfnDirectInput8Create
                  log_enabled log_file];
             [| now repeat split].
           repeat split.
           ++ intros b Hb. apply lookup_delete_ne. congruence.
           ++ intros b Hb. destruct (decide (a = b)) as [-> | Hne].
              ** rewrite lookup_delete_eq in Hb. now destruct Hb.
              ** now apply lookup_delete_ne.
        -- exfalso. unfold IUnknown_Release, bind, class_of in Hrun. rewrite Ho in Hrun.
           destruct o as [q | q | q | q]; cbn in Hreal; subst q;
             unfold WrapperIDirectInputDevice8A.Release, WrapperIDirectInput8A.Release,
               WrapperIDirectInputDevice8W.Release, WrapperIDirectInput8W.Release,
               WrapperIDirectInputDevice8A.m_pRealDevice, WrapperIDirectInput8A.m_pRealDInput,
               WrapperIDirectInputDevice8W.m_pRealDevice, WrapperIDirectInput8W.m_pRealDInput,
               bind in Hrun;
             rewrite Ho in Hrun; discriminate Hrun.
      * unfold IUnknown_Release, bind, class_of in Hrun. rewrite Ho in Hrun.
        discriminate Hrun.
Qed.
End FrameCalls.

(* the last Release on the stand-in's device wrapper removes that
   wrapper and leaves the factory wrapper *)
Lemma only_Release_removes_objects_witness :
  exists w',
    IUnknown_Release (Proxy 2) (Double.world Double.sixdof) = Some (0, w') /\
    removes_at_most (Proxy 2) (Double.world Double.sixdof) w' /\
    heap w' !! 1%positive = Some (DInputA (Real 10)) /\
    heap w' !! 2%positive = None.
Proof.
  eexists. split; [reflexivity |]. split; [| split; reflexivity].
  destruct (only_Release_removes_objects (E := Double.state))
    as (_ & _ & _ & _ & _ & _ & _ & _ & _ & _ & _ & Hrelease).
  apply (Hrelease (Proxy 2) (Double.world Double.sixdof) 0). reflexivity.
Defined.

(** ** Leaving the wrapper through QueryInterface *)

Section Bypass.
Context `{Genuine E}.

(** X12. A device wrapper asked through QueryInterface for any
    interface other than IUnknown and the one of its own class (the
    interface of the other text encoding, for one) hands the query to
    the real device.  When the real device answers with a pointer to a
    genuine object, GetDeviceState through that pointer is not
    filtered: with a DIJOYSTATE buffer and a successful call the game
    reads exactly what the device wrote, rotation axes included. *)
Theorem QueryInterface_leaves_the_wrapper
    (w : World E) a o h riid ppvObj hr h' e1 lpvData hr_state e2 m2 :
  heap w !! a = Some o -> is_device o = true -> wrapped o = Real h ->
  riid <> IID_IUnknown -> riid <> IID_of o ->
  real_QueryInterface h riid ppvObj (genuine w) = (hr, Real h', e1) ->
  real_GetDeviceState h' sizeof_DIJOYSTATE lpvData e1 (memory w) = (hr_state, e2, m2) ->
  exists w',
    (let* '(_, p) := IUnknown_QueryInterface (Proxy a) riid ppvObj in
     let* hr_state := IDirectInputDevice8_GetDeviceState p sizeof_DIJOYSTATE lpvData in
     ret (p, hr_state)) w = Some ((Real h', hr_state), w') /\
    memory w' = m2 /\ genuine w' = e2 /\ heap w' = heap w.
Proof.
  intros Ho Hdev Hreal Hunk Hown Hquery Hstate.
  unfold bind at 1. rewrite (QueryInterface_other w a o h) by assumption.
  rewrite Hquery. cbn [fst snd].
  unfold bind. rewrite GetDeviceState_on_real.
  cbn [set_genuine genuine memory heap]. rewrite Hstate.
  eexists. split; [reflexivity |]. now cbn.
Qed.
End Bypass.

(* the ANSI device wrapper of the stand-in asked for the Unicode
   interface: the axes read 150 and -200 *)
Lemma QueryInterface_leaves_the_wrapper_witness :
  exists w',
    (let* '(_, p) := IUnknown_QueryInterface (Proxy 2) IID_IDirectInputDevice8W nullptr in
     let* hr_state := IDirectInputDevice8_GetDeviceState p sizeof_DIJOYSTATE 1000 in
     ret (p, hr_state)) (Double.world Double.sixdof) = Some ((Real 20, S_OK), w') /\
    memory w' = Double.fill Double.zeroes 1000 /\
    genuine w' = snd (Double.add_ref 20 Double.sixdof) /\
    heap w' = heap (Double.world Double.sixdof).
Proof.
  apply (QueryInterface_leaves_the_wrapper (Double.world Double.sixdof)
           2%positive (DeviceA (Real 20)) 20%positive IID_IDirectInputDevice8W nullptr
           S_OK 20%positive (snd (Double.add_ref 20 Double.sixdof)) 1000 S_OK
           (snd (Double.add_ref 20 Double.sixdof)) (Double.fill Double.zeroes 1000));
    try reflexivity; discriminate.
Defined.

Example unfiltered_axes_after_QueryInterface :
  lRx (load_DIJOYSTATE (Double.fill Double.zeroes 1000) 1000) = 150 /\
  lRy (load_DIJOYSTATE (Double.fill Double.zeroes 1000) 1000) = -200.
Proof. split; reflexivity. Qed.

(** ** The first revision against the second *)

Section Revisions.
Context `{Genuine E}.

Lemma Revision1_DirectInput8Create_at_hand
    (w : World E) pfn e1 hinst dwVersion riid ppvOut punkOuter :
  genuine_function_at_hand w pfn e1 ->
  Revision1.DirectInput8Create hinst dwVersion riid ppvOut punkOuter w =
    Revision1.DirectInput8Create_through pfn hinst dwVersion riid ppvOut punkOuter
      (mkWorld e1 (memory w) (heap w) (Some pfn) (log_enabled w) (log_file w)).
Proof.
  intros [[Hpfn ->] | (Hpfn & hMod & e0 & Hload & Hproc)];
    unfold Revision1.DirectInput8Create, bind.
  - rewrite (resolve_cached w pfn Hpfn). destruct w; cbn in *. now subst.
  - now rewrite (resolve_loaded w hMod e0 (Some pfn) e1 Hpfn Hload Hproc).
Qed.

(** X13. The export of the first revision wraps IDirectInput8A only.
    Asked for any other interface, IDirectInput8W included, it calls
    the genuine creation function with the caller's arguments and
    output pointer and returns what that function returned: a game
    using the Unicode interface holds the genuine object and no
    wrapper object is allocated. *)
Theorem Revision1_forwards_all_but_ANSI
    (w : World E) hinst dwVersion riid ppvOut punkOuter pfn e1 hr out e' :
  riid <> IID_IDirectInput8A ->
  genuine_function_at_hand w pfn e1 ->
  call_DirectInput8Create pfn hinst dwVersion riid ppvOut punkOuter e1 = (hr, out, e') ->
  exists w',
    Revision1.DirectInput8Create hinst dwVersion riid ppvOut punkOuter w
      = Some ((hr, out), w') /\
    genuine w' = e' /\ heap w' = heap w /\ memory w' = memory w.
Proof.
  intros HA Hhand Hcall.
  rewrite (Revision1_DirectInput8Create_at_hand w pfn e1) by assumption.
  apply IsEqualGUID_false in HA.
  unfold Revision1.DirectInput8Create_through. rewrite HA. cbn [negb].
  step. rewrite Hcall. eexists. split; [reflexivity |]. now cbn.
Qed.

Lemma equiv_blind {A} (m : M E A) : log_blind m -> log_equiv m m.
Proof. intros Hm. exact Hm. Qed.

Lemma equiv_bind {A B} (m1 m2 : M E A) (k1 k2 : A -> M E B) :
  log_equiv m1 m2 -> (forall x, log_equiv (k1 x) (k2 x)) ->
  log_equiv (bind m1 k1) (bind m2 k2).
Proof.
  intros Hm Hk w1 w2 Hw. unfold bind. specialize (Hm w1 w2 Hw).
  destruct (m1 w1) as [[x1 w1'] |], (m2 w2) as [[x2 w2'] |]; try contradiction; [| exact I].
  destruct Hm as [-> Hw']. now apply Hk.
Qed.

Lemma equiv_Log message1 message2 : log_equiv (E := E) (Log message1) (Log message2).
Proof.
  intros [e1 m1 h1 p1 en1 l1] [e2 m2 h2 p2 en2 l2] (He & Hm & Hh & Hp); cbn in *; subst.
  now repeat split.
Qed.

Lemma equiv_Log_left {A} message (m1 m2 : M E A) :
  log_equiv m1 m2 -> log_equiv (bind (Log message) (fun _ => m1)) m2.
Proof.
  intros Hm w1 w2 Hw. unfold bind, Log. apply Hm.
  destruct w1, w2. exact Hw.
Qed.

Lemma equiv_Log_right {A} message (m1 m2 : M E A) :
  log_equiv m1 m2 -> log_equiv m1 (bind (Log message) (fun _ => m2)).
Proof.
  intros Hm w1 w2 Hw. unfold bind, Log. apply Hm.
  destruct w1, w2. exact Hw.
Qed.

(** X14. The two revisions do the same for an ANSI game, but for the
    lines they log.  For every requested interface other than
    IDirectInput8W the exports of the two revisions, run in worlds that
    differ in the log only, both have a defined result or neither has,
    return the same result code and output pointer and leave worlds
    that differ in the log only; so do the two Release methods of the
    ANSI device wrapper, of which the first revision's runs a
    destructor that logs. *)
Theorem revisions_agree_but_for_the_log hinst dwVersion riid ppvOut punkOuter :
  riid <> IID_IDirectInput8W ->
  log_equiv (E := E)
    (Revision1.DirectInput8Create hinst dwVersion riid ppvOut punkOuter)
    (DirectInput8Create hinst dwVersion riid ppvOut punkOuter) /\
  (forall this,
     log_equiv (E := E)
       (Revision1.WrapperIDirectInputDevice8A_Release this)
       (WrapperIDirectInputDevice8A.Release this)).
Proof.
  intros HW. apply IsEqualGUID_false in HW. split.
  - unfold Revision1.DirectInput8Create, DirectInput8Create.
    apply equiv_bind; [apply equiv_blind, blind_resolve |].
    intros [pfn |]; [| apply equiv_blind, blind_ret].
    unfold Revision1.DirectInput8Create_through, DirectInput8Create_through.
    apply equiv_bind; [apply equiv_Log |]. intros _.
    rewrite HW. destruct (IsEqualGUID riid IID_IDirectInput8A); cbn [negb].
    + apply equiv_Log_right.
      apply equiv_bind; [apply equiv_blind, blind_sys |]. intros [hr pReal].
      destruct (SUCCEEDED hr).
      * apply equiv_Log_left. apply equiv_blind.
        unfold WrapperIDirectInput8A.new. blind.
      * apply equiv_Log_left. apply equiv_blind, blind_ret.
    + apply equiv_bind; [apply equiv_Log |]. intros _.
      apply equiv_blind, blind_sys.
  - intros this.
    unfold Revision1.WrapperIDirectInputDevice8A_Release, WrapperIDirectInputDevice8A.Release.
    apply equiv_bind; [apply equiv_blind, blind_m_pRealDevice_A |]. intros p.
    apply equiv_bind; [apply equiv_blind, blind_through |]. intros uRet.
    apply equiv_bind; [| intros _; apply equiv_blind, blind_ret].
    destruct (uRet =? 0); [| apply equiv_blind, blind_ret].
    unfold Revision1.destroy_WrapperIDirectInputDevice8A.
    apply equiv_Log_left. apply equiv_blind, blind_operator_delete.
Qed.
End Revisions.

Lemma Revision1_forwards_all_but_ANSI_witness :
  exists w',
    Revision1.DirectInput8Create 0 0x0800 IID_IDirectInput8W nullptr nullptr
        (Double.fresh_world Double.sixdof) = Some ((S_OK, Real 10), w') /\
    genuine w' = snd (Double.create 2%positive 0 0x0800 IID_IDirectInput8W nullptr nullptr
                        (snd (Double.load_library "" Double.sixdof))) /\
    heap w' = ∅ /\
    memory w' = Double.zeroes.
Proof.
  apply (Revision1_forwards_all_but_ANSI (Double.fresh_world Double.sixdof)
           0 0x0800 IID_IDirectInput8W nullptr nullptr 2%positive
           (snd (Double.load_library "" Double.sixdof)) S_OK (Real 10)).
  - discriminate.
  - right. split; [reflexivity |].
    exists 1%positive, (snd (Double.load_library "" Double.sixdof)).
    split; reflexivity.
  - reflexivity.
Defined.

(* the refusing library: the first revision logs the failure code, the
   second logs nothing more, and both return it *)
Lemma revisions_agree_but_for_the_log_witness :
  match Revision1.DirectInput8Create 0 0x0800 IID_IDirectInput8A (Real 77) nullptr
          Refusing.logging,
        DirectInput8Create 0 0x0800 IID_IDirectInput8A (Real 77) nullptr Refusing.world with
  | Some (x1, w1'), Some (x2, w2') => x1 = x2 /\ same_but_log w1' w2'
  | None, None => True
  | _, _ => False
  end.
Proof.
  destruct (revisions_agree_but_for_the_log (E := Refusing.state)
              0 0x0800 IID_IDirectInput8A (Real 77) nullptr) as [Hexport _].
  - discriminate.
  - apply Hexport. now repeat split.
Defined.

Example Revision1_logs_the_failure_code :
  match Revision1.DirectInput8Create 0 0x0800 IID_IDirectInput8A (Real 77) nullptr
          Refusing.logging with
  | Some (r, w') => (r, log_file w')
  | None => ((S_OK, nullptr), [])
  end
  = ((E_FAIL, Real 77),
     ["DirectInput8Create() export called by the game.";
      "Failed to create real DirectInput8 object. HRESULT: -2147467259"]%string).
Proof. reflexivity. Qed.

(** ** From the export to the polled state *)

Section EndToEnd.
Context `{Genuine E}.

(** X15. The wrapper end to end.  A game calls the exported
    DirectInput8Create for IDirectInput8A or IDirectInput8W, calls
    CreateDevice on the pointer it got and polls the device it got
    with a DIJOYSTATE buffer.  If the three genuine calls succeed and
    the device describes itself as a first-person device of the six
    degrees of freedom subtype, the game holds two wrapper objects and
    the state it reads is the one the real device wrote with lRx and
    lRy zero. *)
Theorem export_to_polled_state
    (w : World E) hinst dwVersion riid ppvOut punkOuter pfn e0 hr f e1
    rguid lplp pUnk hr_dev d e2 hr_info didi e3 lpvData hr_state e4 m4 :
  riid = IID_IDirectInput8A \/ riid = IID_IDirectInput8W ->
  genuine_function_at_hand w pfn e0 ->
  call_DirectInput8Create pfn hinst dwVersion riid nullptr punkOuter e0 = (hr, Real f, e1) ->
  SUCCEEDED hr = true ->
  real_CreateDevice f rguid nullptr pUnk e1 = (hr_dev, Real d, e2) ->
  SUCCEEDED hr_dev = true ->
  real_GetDeviceInfo d (sizeof_DIDEVICEINSTANCE_of (factory_of riid (Real f))) e2
    = (hr_info, didi, e3) ->
  SUCCEEDED hr_info = true ->
  first_person_sixdof (dwDevType didi) ->
  real_GetDeviceState d sizeof_DIJOYSTATE lpvData e3 (memory w) = (hr_state, e4, m4) ->
  SUCCEEDED hr_state = true ->
  exists factory device w',
    (let* '(_, factory) := DirectInput8Create hinst dwVersion riid ppvOut punkOuter in
     let* '(_, device) := IDirectInput8_CreateDevice factory rguid lplp pUnk in
     let* hr_state := IDirectInputDevice8_GetDeviceState device sizeof_DIJOYSTATE lpvData in
     ret (factory, device, hr_state)) w
      = Some ((Proxy factory, Proxy device, hr_state), w') /\
    factory <> device /\
    heap w' !! factory = Some (factory_of riid (Real f)) /\
    heap w' !! device = Some (device_of (factory_of riid (Real f)) (Real d)) /\
    genuine w' = e4 /\
    load_DIJOYSTATE (memory w') lpvData = without_rotation (load_DIJOYSTATE m4 lpvData).
Proof.
  intros Hriid Hhand Hcreate Hok Hdev Hok_dev Hinfo Hok_info Htype Hstate Hok_state.
  unfold bind at 1.
  rewrite (DirectInput8Create_at_hand w pfn e0) by assumption.
  destruct (DirectInput8Create_through_recognised
              (mkWorld e0 (memory w) (heap w) (Some pfn) (log_enabled w) (log_file w))
              pfn hinst dwVersion riid ppvOut punkOuter hr (Real f) e1 Hriid Hcreate)
    as [l1 ->].
  rewrite Hok. cbn [heap genuine memory g_pfnDirectInput8Create log_enabled].
  set (a := fresh (dom (heap w))).
  set (o := factory_of riid (Real f)) in *.
  set (w1 := mkWorld e1 (memory w) (<[a := o]> (heap w)) (Some pfn) (log_enabled w) l1).
  assert (Ho : heap w1 !! a = Some o) by apply lookup_insert_eq.
  assert (Hfac : is_factory o = true).
  { unfold o, factory_of. now destruct (IsEqualGUID riid IID_IDirectInput8A). }
  assert (Hwrapped : wrapped o = Real f).
  { unfold o, factory_of. now destruct (IsEqualGUID riid IID_IDirectInput8A). }
  destruct (CreateDevice_on_proxy w1 a o f rguid lplp pUnk hr_dev d e2 hr_info didi e3)
    as [l2 Hrun]; try assumption.
  unfold bind at 1. rewrite Hrun. clear Hrun.
  apply first_person_sixdof_test in Htype. rewrite Hok_info, Htype. cbn [andb].
  set (b := fresh (dom (heap w1))).
  unfold bind.
  rewrite (GetDeviceState_on_proxy _ b (device_of o (Real d)) d);
    cbn [heap genuine memory w1].
  - rewrite Hstate, Hok_state, Z.eqb_refl. cbn [andb].
    assert (Hne : a <> b).
    { intros Heq. pose proof (fresh_is_free (heap w1)) as Hfree.
      fold b in Hfree. rewrite <- Heq in Hfree. congruence. }
    exists a, b. eexists. split; [reflexivity |]. cbn [heap genuine memory].
    split; [exact Hne |].
    split; [rewrite lookup_insert_ne by congruence; apply lookup_insert_eq |].
    split; [apply lookup_insert_eq |].
    split; [reflexivity | apply load_blank_rotation].
  - apply lookup_insert_eq.
  - now destruct o.
  - now destruct o.
Qed.
End EndToEnd.

Lemma export_to_polled_state_witness :
  exists factory device w',
    (let* '(_, factory) := DirectInput8Create 0 0x0800 IID_IDirectInput8A nullptr nullptr in
     let* '(_, device) := IDirectInput8_CreateDevice factory GUID_Joystick nullptr nullptr in
     let* hr_state := IDirectInputDevice8_GetDeviceState device sizeof_DIJOYSTATE 1000 in
     ret (factory, device, hr_state)) (Double.fresh_world Double.sixdof)
      = Some ((Proxy factory, Proxy device, S_OK), w') /\
    factory <> device /\
    heap w' !! factory = Some (factory_of IID_IDirectInput8A (Real 10)) /\
    heap w' !! device
      = Some (device_of (factory_of IID_IDirectInput8A (Real 10)) (Real 20)) /\
    genuine w' = Double.with_device
                   (snd (Double.create 2%positive 0 0x0800 IID_IDirectInput8A nullptr nullptr
                           (snd (Double.load_library "" Double.sixdof)))) /\
    load_DIJOYSTATE (memory w') 1000
      = without_rotation (load_DIJOYSTATE (Double.fill Double.zeroes 1000) 1000).
Proof.
  apply (export_to_polled_state (Double.fresh_world Double.sixdof)
           0 0x0800 IID_IDirectInput8A nullptr nullptr 2%positive
           (snd (Double.load_library "" Double.sixdof)) S_OK 10%positive
           (snd (Double.create 2%positive 0 0x0800 IID_IDirectInput8A nullptr nullptr
                   (snd (Double.load_library "" Double.sixdof))))
           GUID_Joystick nullptr nullptr S_OK 20%positive
           (Double.with_device
              (snd (Double.create 2%positive 0 0x0800 IID_IDirectInput8A nullptr nullptr
                      (snd (Double.load_library "" Double.sixdof)))))
           S_OK {| dwDevType := 0x00010318; tszProductName := "Wireless Controller" |}
           (Double.with_device
              (snd (Double.create 2%positive 0 0x0800 IID_IDirectInput8A nullptr nullptr
                      (snd (Double.load_library "" Double.sixdof)))))
           1000 S_OK
           (Double.with_device
              (snd (Double.create 2%positive 0 0x0800 IID_IDirectInput8A nullptr nullptr
                      (snd (Double.load_library "" Double.sixdof)))))
           (Double.fill Double.zeroes 1000)).
  - left. reflexivity.
  - right. split; [reflexivity |].
    exists 1%positive, (snd (Double.load_library "" Double.sixdof)).
    split; reflexivity.
  - reflexivity.
  - reflexivity.
  - reflexivity.
  - reflexivity.
  - reflexivity.
  - reflexivity.
  - split; reflexivity.
  - reflexivity.
  - reflexivity.
Defined.
